(** * Markdown rendering of command results (server/events/markdown_renderer.go)

    A shallow embedding of [MarkdownRenderer.Render] and the functions and
    templates it uses, together with the fragment of Go's [text/template]
    that the eight fixed templates of the file exercise.

    Definitions:
    - [GoString]: interpreted string literals, containment of strings;
    - [template]: values handed to a template, parsing and execution;
    - [Renderer]: the data types, templates and functions of
      markdown_renderer.go, over a store that holds the plans that project
      results point to;
    - the documents of the specification, to which [Render] is compared;
    - [Sample]: inputs on which the definitions are run.

    Proofs: what each template writes, what the loop over the project
    results computes, and the properties of [Render]. *)

From Stdlib Require Import Ascii String.
From stdpp Require Import base strings gmap list sorting pretty functions.

Set Warnings "-register-all".

(** ** Go strings *)

Module GoString.

(** A Go interpreted string literal: the two characters backslash, n stand
    for one line feed.  The templates of the source are written with it, so
    that they can be compared with the source character by character. *)
Fixpoint lit (s : string) : string :=
  match s with
  | String "\" (String "n" s') => String "010" (lit s')
  | String c s' => String c (lit s')
  | "" => ""
  end.

(** [strings.Contains t s]: [s] occurs in [t]. *)
Definition contains (s t : string) : Prop :=
  ∃ pre post, t = pre +:+ s +:+ post.

End GoString.
Import GoString.

(** ** Results of fallible library calls: a value or an error message *)

Inductive result (A : Type) : Type :=
  | Ok (a : A)
  | Err (e : string).
Arguments Ok {A} a.
Arguments Err {A} e.

Global Instance result_ret : MRet result := @Ok.
Global Instance result_bind : MBind result := λ A B f r,
  match r with
  | Ok a => f a
  | Err e => Err e
  end.
Global Instance result_fmap : FMap result := λ A B f r,
  match r with
  | Ok a => Ok (f a)
  | Err e => Err e
  end.

(** ** The fragment of text/template used by the renderer *)

Module template.

(** *** Values

    What reflection shows of the data handed to [Execute]: strings,
    booleans, integers, maps from strings to strings, and structs.  A struct
    is seen through the resolution of its field names (promoted fields of
    embedded structs included) and through its default formatting. *)
Inductive value : Type :=
  | VString (s : string)
  | VBool (b : bool)
  | VInt (n : Z)
  | VMap (m : gmap string string)
  | VStruct (fieldByName : string → option value) (formatted : string).

(** Go leaves the order in which the keys of a map are enumerated
    unspecified ([reflect.Value.MapKeys]); an enumeration is any function
    that lists exactly the keys of the map. *)
Class MapIteration := {
  MapKeys : gmap string string → list string;
  MapKeys_perm : ∀ m, MapKeys m ≡ₚ (map_to_list m).*1
}.

(** [sortKeys] of text/template: keys of kind string are visited in
    increasing order of Go's [<] on strings, the bytewise lexicographic
    order. *)
Definition sortKeys (keys : list string) : list string :=
  merge_sort String.le keys.

(** *** Syntax *)

Inductive expr : Type :=
  | EDot                      (* [.] *)
  | EField (name : string)    (* [.Name] *)
  | EVar (name : string)      (* [$name] *)
  | ELen (arg : expr).        (* [len arg] *)

Inductive node : Type :=
  | NText (text : string)
  | NAction (pipe : expr)
  | NIf (pipe : expr) (body : list node)
  | NRange (vars : list string) (pipe : expr) (body : list node).

Definition Template := list node.

(** *** Lexing: text and the actions between the delimiters *)

Inductive item : Type :=
  | IText (text : string)
  | IAction (body : string).

Definition textItem (acc : string) : list item :=
  if acc is "" then [] else [IText (String.rev acc)].

(** [acc] holds, reversed, the characters read since the last delimiter. *)
Fixpoint lex (inAction : bool) (acc : string) (s : string) : result (list item) :=
  match s with
  | "" => if inAction then Err "unclosed action" else Ok (textItem acc)
  | String c s' =>
      if inAction then
        match c, s' with
        | "}"%char, String "}"%char s'' =>
            items ← lex false "" s''; Ok (IAction (String.rev acc) :: items)
        | _, _ => lex true (String c acc) s'
        end
      else
        match c, s' with
        | "{"%char, String "{"%char s'' =>
            items ← lex true "" s''; Ok (textItem acc ++ items)
        | _, _ => lex false (String c acc) s'
        end
  end.

Definition word (acc : string) : list string :=
  if acc is "" then [] else [String.rev acc].

(** The words of an action: separated by white space, a comma being a word
    of its own. *)
Fixpoint words (acc : string) (s : string) : list string :=
  match s with
  | "" => word acc
  | String c s' =>
      if Ascii.is_space c then word acc ++ words "" s'
      else if (c =? ",")%char then word acc ++ "," :: words "" s'
      else words (String c acc) s'
  end.

(** *** Parsing *)

Definition isAlphaNumeric (c : ascii) : bool :=
  let n := nat_of_ascii c in
  (n =? 95) || ((48 <=? n) && (n <=? 57))
  || ((65 <=? n) && (n <=? 90)) || ((97 <=? n) && (n <=? 122)).

Fixpoint isIdentifier (s : string) : bool :=
  match s with
  | "" => true
  | String c s' => isAlphaNumeric c && isIdentifier s'
  end.

Definition parseOperand (w : string) : result expr :=
  match w with
  | String "."%char "" => Ok EDot
  | String "."%char name =>
      if isIdentifier name then Ok (EField name)
      else Err ("unsupported operand " +:+ w)
  | String "$"%char name =>
      if isIdentifier name then Ok (EVar name)
      else Err ("unsupported operand " +:+ w)
  | _ => Err ("unsupported operand " +:+ w)
  end.

Definition parseVariable (w : string) : result string :=
  match w with
  | String "$"%char name =>
      if isIdentifier name then Ok name else Err ("bad variable " +:+ w)
  | _ => Err ("bad variable " +:+ w)
  end.

Definition parsePipeline (ws : list string) : result expr :=
  match ws with
  | [w] => parseOperand w
  | [f; w] =>
      if String.eqb f "len" then ELen <$> parseOperand w
      else Err ("unsupported function " +:+ f)
  | _ => Err "unsupported pipeline"
  end.

Inductive action : Type :=
  | AEnd
  | AIf (pipe : expr)
  | ARange (vars : list string) (pipe : expr)
  | APipe (pipe : expr).

Definition parseRange (ws : list string) : result action :=
  match ws with
  | k :: c :: e :: d :: ws' =>
      if String.eqb c "," && String.eqb d ":=" then
        key ← parseVariable k; elem ← parseVariable e;
        ARange [key; elem] <$> parsePipeline ws'
      else if String.eqb c ":=" then
        elem ← parseVariable k; ARange [elem] <$> parsePipeline (e :: d :: ws')
      else ARange [] <$> parsePipeline ws
  | e :: d :: ws' =>
      if String.eqb d ":=" then
        elem ← parseVariable e; ARange [elem] <$> parsePipeline ws'
      else ARange [] <$> parsePipeline ws
  | _ => ARange [] <$> parsePipeline ws
  end.

Definition parseAction (ws : list string) : result action :=
  match ws with
  | [] => Err "missing value for command"
  | w :: ws' =>
      if String.eqb w "end" then
        if ws' is [] then Ok AEnd else Err "unexpected token after end"
      else if String.eqb w "if" then AIf <$> parsePipeline ws'
      else if String.eqb w "range" then parseRange ws'
      else APipe <$> parsePipeline ws
  end.

Inductive block : Type :=
  | BIf (pipe : expr)
  | BRange (vars : list string) (pipe : expr).

Definition close (b : block) (body : list node) : node :=
  match b with
  | BIf pipe => NIf pipe body
  | BRange vars pipe => NRange vars pipe body
  end.

(** [cur] holds, reversed, the nodes of the innermost open block; [open]
    the enclosing open blocks, each with the nodes that precede it. *)
Fixpoint build (items : list item) (open : list (block * list node))
    (cur : list node) : result Template :=
  match items with
  | [] => if open is [] then Ok (reverse cur) else Err "unexpected EOF"
  | IText text :: items' => build items' open (NText text :: cur)
  | IAction body :: items' =>
      act ← parseAction (words "" body);
      match act with
      | APipe pipe => build items' open (NAction pipe :: cur)
      | AIf pipe => build items' ((BIf pipe, cur) :: open) []
      | ARange vars pipe => build items' ((BRange vars pipe, cur) :: open) []
      | AEnd =>
          match open with
          | [] => Err "unexpected {{end}}"
          | (b, outer) :: open' =>
              build items' open' (close b (reverse cur) :: outer)
          end
      end
  end.

(** [template.New("").Parse(text)], for the syntax that the templates of
    the renderer use: text, the actions [.Field], [$variable] and
    [len .Field], and the blocks [if], [range] (with no, one or two
    variables) and [end].  Any other action is an error of this parser.
    A variable that is not declared is an error of the execution here, and
    of the parser in Go. *)
Definition Parse (text : string) : result Template :=
  items ← lex false "" text; build items [] [].

(** [template.Must]: a parse error panics when the package is initialised.
    The templates of the renderer all parse, see [templates_parse]. *)
Definition Must (r : result Template) : Template :=
  match r with
  | Ok t => t
  | Err _ => []
  end.

(** *** Execution *)

(** Truth of a value for [if]: the empty values are false. *)
Definition truth (v : value) : bool :=
  match v with
  | VString s => negb (String.eqb s "")
  | VBool b => b
  | VInt n => negb (n =? 0)%Z
  | VMap m => negb (size m =? 0)
  | VStruct _ _ => true
  end.

Definition kindOf (v : value) : string :=
  match v with
  | VString _ => "string"
  | VBool _ => "bool"
  | VInt _ => "int"
  | VMap _ => "map[string]string"
  | VStruct _ _ => "struct"
  end.

Fixpoint join (sep : string) (ss : list string) : string :=
  match ss with
  | [] => ""
  | [s] => s
  | s :: ss' => s +:+ sep +:+ join sep ss'
  end.

Fixpoint concat (ss : list string) : string :=
  match ss with
  | [] => ""
  | s :: ss' => s +:+ concat ss'
  end.

Fixpoint lookupVar (name : string) (vars : list (string * value)) : result value :=
  match vars with
  | [] => Err ("undefined variable $" +:+ name)
  | (x, v) :: vars' => if String.eqb x name then Ok v else lookupVar name vars'
  end.

(** The variables a [range] over a map declares: with one variable the
    element, with two the key and the element. *)
Definition rangeVars (vars : list string) (key elem : string) : list (string * value) :=
  match vars with
  | [] => []
  | [e] => [(e, VString elem)]
  | k :: e :: _ => [(e, VString elem); (k, VString key)]
  end.

Section exec.
Context {iteration : MapIteration}.

(** [fmt.Fprint] of a value, as [printValue] of text/template calls it. *)
Definition printValue (v : value) : string :=
  match v with
  | VString s => s
  | VBool b => if b then "true" else "false"
  | VInt n => pretty n
  | VMap m =>
      "map[" +:+ join " " ((λ k, k +:+ ":" +:+ m !!! k) <$> sortKeys (MapKeys m)) +:+ "]"
  | VStruct _ formatted => formatted
  end.

Fixpoint eval (dot : value) (vars : list (string * value)) (e : expr) : result value :=
  match e with
  | EDot => Ok dot
  | EField name =>
      match dot with
      | VStruct fieldByName _ =>
          match fieldByName name with
          | Some v => Ok v
          | None => Err ("can't evaluate field " +:+ name +:+ " in type struct")
          end
      | _ => Err ("can't evaluate field " +:+ name +:+ " in type " +:+ kindOf dot)
      end
  | EVar name => lookupVar name vars
  | ELen arg =>
      v ← eval dot vars arg;
      match v with
      | VString s => Ok (VInt (Z.of_nat (String.length s)))
      | VMap m => Ok (VInt (Z.of_nat (size m)))
      | _ => Err ("error calling len: len of type " +:+ kindOf v)
      end
  end.

(** A list of nodes writes what its nodes write, in order; the first error
    stops the execution. *)
Definition walkList (walk : node → result string) : list node → result string :=
  fix go (nodes : list node) : result string :=
    match nodes with
    | [] => Ok ""
    | n :: nodes' => s ← walk n; rest ← go nodes'; Ok (s +:+ rest)
    end.

(** One iteration per key, in the order given. *)
Definition walkKeys (iter : string → result string) : list string → result string :=
  fix go (keys : list string) : result string :=
    match keys with
    | [] => Ok ""
    | k :: keys' => s ← iter k; rest ← go keys'; Ok (s +:+ rest)
    end.

Fixpoint walk (dot : value) (vars : list (string * value)) (n : node) : result string :=
  match n with
  | NText text => Ok text
  | NAction pipe => printValue <$> eval dot vars pipe
  | NIf pipe body =>
      v ← eval dot vars pipe;
      if truth v then walkList (walk dot vars) body else Ok ""
  | NRange names pipe body =>
      v ← eval dot vars pipe;
      match v with
      | VMap m =>
          walkKeys
            (λ key, let elem := m !!! key in
                    walkList (walk (VString elem) (rangeVars names key elem ++ vars)) body)
            (sortKeys (MapKeys m))
      | _ => Err ("range can't iterate over " +:+ printValue v)
      end
  end.

(** [tmpl.Execute(buf, data)]: the text written to the buffer, or the error.
    The variable [$] is the data. *)
Definition Execute (tmpl : Template) (data : value) : result string :=
  walkList (walk data [("", data)]) tmpl.

(** *** Structs as values *)

Record field := Field {
  fieldName : string;
  fieldEmbedded : bool;
  fieldValue : value
}.

Definition direct (name : string) (f : field) : option value :=
  if String.eqb (fieldName f) name then Some (fieldValue f) else None.

Definition promoted (name : string) (f : field) : option value :=
  if fieldEmbedded f then
    match fieldValue f with
    | VStruct fieldByName _ => fieldByName name
    | _ => None
    end
  else None.

(** [FieldByName]: a field of the struct itself (an embedded struct is a
    field named after its type), otherwise a field promoted from exactly one
    embedded struct. *)
Definition FieldByName (fields : list field) (name : string) : option value :=
  match omap (direct name) fields with
  | v :: _ => Some v
  | [] =>
      match omap (promoted name) fields with
      | [v] => Some v
      | _ => None
      end
  end.

Definition structOf (fields : list field) : value :=
  VStruct (FieldByName fields)
          ("{" +:+ join " " (printValue ∘ fieldValue <$> fields) +:+ "}").

End exec.

End template.
Import template.

(** ** The renderer *)

Module Renderer.

(** *** Data *)

(** CommonData is data that all responses have. *)
Record CommonData := {
  CommonData_Command : string;
  CommonData_Verbose : bool;
  CommonData_Log : string
}.

(** ErrData is data about an error response. *)
Record ErrData := {
  ErrData_Error : string;
  ErrData_CommonData : CommonData
}.

(** FailureData is data about a failure response. *)
Record FailureData := {
  FailureData_Failure : string;
  FailureData_CommonData : CommonData
}.

(** ResultData is data about a successful response. *)
Record ResultData := {
  ResultData_Results : gmap string string;
  ResultData_CommonData : CommonData
}.

(** Modelled from the spec: the struct [PlanSuccess] is declared outside
    src/.  Its fields are the diff text, the lock key and the discard URL
    that the renderer and its plan template read and write. *)
Record PlanSuccess := {
  PlanSuccess_TerraformOutput : string;
  PlanSuccess_LockURL : string;
  PlanSuccess_LockKey : string
}.

(** A [*PlanSuccess] that is not nil is an address in the heap. *)
Definition loc := positive.
Bind Scope positive_scope with loc.

(** A value of the interface [error]: [None] is nil, [Some msg] an error
    whose method [Error()] returns [msg]. *)
Definition error := option string.

(** Modelled from the spec: the struct [ProjectResult] is declared outside
    src/.  A path and the four variants of a project outcome, each empty
    (nil or the empty string) when it is not populated. *)
Record ProjectResult := {
  ProjectResult_Path : string;
  ProjectResult_Error : error;
  ProjectResult_Failure : string;
  ProjectResult_PlanSuccess : option loc;
  ProjectResult_ApplySuccess : string
}.

(** Modelled from the spec: the struct [CommandResponse] is declared outside
    src/.  A top-level error, a top-level failure, or the per-project
    results in order. *)
Record CommandResponse := {
  CommandResponse_Error : error;
  CommandResponse_Failure : string;
  CommandResponse_ProjectResults : list ProjectResult
}.

(** MarkdownRenderer renders responses as markdown. *)
Record MarkdownRenderer := {
  LockURLBuilder : string → string
}.

(** *** Memory and calls

    The [PlanSuccess] values that project results point to live in a heap;
    two results may point to the same value, and what [Render] writes to
    one stays written for the caller.  [calls] records the arguments with
    which [LockURLBuilder] has been called, oldest first.  The response and
    the slice of project results are only read: they are plain values. *)
Record Store := {
  heap : loc → PlanSuccess;
  calls : list string
}.

Definition M (A : Type) : Type := Store → A * Store.

Global Instance M_ret : MRet M := λ A a σ, (a, σ).
Global Instance M_bind : MBind M := λ A B f c σ,
  let '(a, σ') := c σ in f a σ'.

(** [*p] *)
Definition load (p : loc) : M PlanSuccess := λ σ, (heap σ p, σ).

(** [p.LockURL = url] *)
Definition storeLockURL (p : loc) (url : string) : M unit := λ σ,
  let old := heap σ p in
  let new := {| PlanSuccess_TerraformOutput := PlanSuccess_TerraformOutput old;
                PlanSuccess_LockURL := url;
                PlanSuccess_LockKey := PlanSuccess_LockKey old |} in
  (tt, {| heap := <[p := new]> (heap σ); calls := calls σ |}).

(** [m.LockURLBuilder(key)] *)
Definition callLockURLBuilder (m : MarkdownRenderer) (key : string) : M string := λ σ,
  (LockURLBuilder m key, {| heap := heap σ; calls := calls σ ++ [key] |}).

(** *** Templates *)

Definition logTmpl : string :=
  lit "{{if .Verbose}}\n<details><summary>Log</summary>\n  <p>\n\n```\n{{.Log}}```\n</p></details>{{end}}\n".

Definition singleProjectTmpl : Template :=
  Must (Parse (lit "{{ range $result := .Results }}{{$result}}{{end}}\n" +:+ logTmpl)).

Definition multiProjectTmpl : Template :=
  Must (Parse (
    lit "Ran {{.Command}} in {{ len .Results }} directories:\n" +:+
    lit "{{ range $path, $result := .Results }}" +:+
    lit " * `{{$path}}`\n" +:+
    lit "{{end}}\n" +:+
    lit "{{ range $path, $result := .Results }}" +:+
    lit "## {{$path}}/\n" +:+
    lit "{{$result}}\n" +:+
    lit "---\n{{end}}" +:+
    logTmpl)).

Definition planSuccessTmpl : Template :=
  Must (Parse (
    lit "```diff\n" +:+
    lit "{{.TerraformOutput}}\n" +:+
    lit "```\n\n" +:+
    lit "* To **discard** this plan click [here]({{.LockURL}}).")).

Definition applySuccessTmpl : Template :=
  Must (Parse (
    lit "```diff\n" +:+
    lit "{{.Output}}\n" +:+
    lit "```")).

Definition errTmplText : string :=
  lit "**{{.Command}} Error**\n" +:+
  lit "```\n" +:+
  lit "{{.Error}}\n" +:+
  lit "```\n".

Definition errTmpl : Template := Must (Parse errTmplText).
Definition errWithLogTmpl : Template := Must (Parse (errTmplText +:+ logTmpl)).

Definition failureTmplText : string :=
  lit "**{{.Command}} Failed**: {{.Failure}}\n".

Definition failureTmpl : Template := Must (Parse failureTmplText).
Definition failureWithLogTmpl : Template := Must (Parse (failureTmplText +:+ logTmpl)).

Section Renderer.
Context {iteration : MapIteration}.

(** *** The data of each template as a value *)

Class Reflect (A : Type) := valueOf : A → value.

Global Instance CommonData_reflect : Reflect CommonData := λ d,
  structOf [Field "Command" false (VString (CommonData_Command d));
            Field "Verbose" false (VBool (CommonData_Verbose d));
            Field "Log" false (VString (CommonData_Log d))].

Global Instance ErrData_reflect : Reflect ErrData := λ d,
  structOf [Field "Error" false (VString (ErrData_Error d));
            Field "CommonData" true (valueOf (ErrData_CommonData d))].

Global Instance FailureData_reflect : Reflect FailureData := λ d,
  structOf [Field "Failure" false (VString (FailureData_Failure d));
            Field "CommonData" true (valueOf (FailureData_CommonData d))].

Global Instance ResultData_reflect : Reflect ResultData := λ d,
  structOf [Field "Results" false (VMap (ResultData_Results d));
            Field "CommonData" true (valueOf (ResultData_CommonData d))].

Global Instance PlanSuccess_reflect : Reflect PlanSuccess := λ d,
  structOf [Field "TerraformOutput" false (VString (PlanSuccess_TerraformOutput d));
            Field "LockURL" false (VString (PlanSuccess_LockURL d));
            Field "LockKey" false (VString (PlanSuccess_LockKey d))].

(** *** Functions *)

Definition renderTemplate (tmpl : Template) (data : value) : string :=
  match Execute tmpl data with
  | Err err => "Failed to render template, this is a bug: " +:+ err
  | Ok buf => buf
  end.

(** The body of the loop of [renderProjectResults]: one project result is
    rendered and stored under its path. *)
Definition renderProjectResult (m : MarkdownRenderer) (common : CommonData)
    (result : ProjectResult) (results : gmap string string)
    : M (gmap string string) :=
  match ProjectResult_Error result with
  | Some err =>
      mret (<[ProjectResult_Path result :=
               renderTemplate errTmpl (structOf [
                 Field "Command" false (VString (CommonData_Command common));
                 Field "Error" false (VString err)])]> results)
  | None =>
      if negb (String.eqb (ProjectResult_Failure result) "") then
        mret (<[ProjectResult_Path result :=
                 renderTemplate failureTmpl (structOf [
                   Field "Command" false (VString (CommonData_Command common));
                   Field "Failure" false (VString (ProjectResult_Failure result))])]> results)
      else
        match ProjectResult_PlanSuccess result with
        | Some p =>
            plan ← load p;
            url ← callLockURLBuilder m (PlanSuccess_LockKey plan);
            storeLockURL p url;;
            plan' ← load p;
            mret (<[ProjectResult_Path result :=
                     renderTemplate planSuccessTmpl (valueOf plan')]> results)
        | None =>
            if negb (String.eqb (ProjectResult_ApplySuccess result) "") then
              mret (<[ProjectResult_Path result :=
                       renderTemplate applySuccessTmpl (structOf [
                         Field "Output" false (VString (ProjectResult_ApplySuccess result))])]> results)
            else
              mret (<[ProjectResult_Path result := "Found no template. This is a bug!"]> results)
        end
  end.

(** [for _, result := range pathResults { ... }] *)
Fixpoint rangeProjectResults (m : MarkdownRenderer) (common : CommonData)
    (pathResults : list ProjectResult) (results : gmap string string)
    : M (gmap string string) :=
  match pathResults with
  | [] => mret results
  | result :: rest =>
      results' ← renderProjectResult m common result results;
      rangeProjectResults m common rest results'
  end.

Definition renderProjectResults (m : MarkdownRenderer)
    (pathResults : list ProjectResult) (common : CommonData) : M string :=
  results ← rangeProjectResults m common pathResults ∅;
  let tmpl := if size results =? 1 then singleProjectTmpl else multiProjectTmpl in
  mret (renderTemplate tmpl (valueOf {| ResultData_Results := results;
                                        ResultData_CommonData := common |})).

(** The type [CommandName] and its method [String] are declared outside
    src/, and [strings.Title] belongs to Go's library: the three are
    parameters of the renderer. *)
Variable CommandName : Type.
Variable CommandName_String : CommandName → string.
Variable strings_Title : string → string.

(** Render formats the data into a markdown string. *)
Definition Render (m : MarkdownRenderer) (res : CommandResponse)
    (cmdName : CommandName) (log : string) (verbose : bool) : M string :=
  let commandStr := strings_Title (CommandName_String cmdName) in
  let common := {| CommonData_Command := commandStr;
                   CommonData_Verbose := verbose;
                   CommonData_Log := log |} in
  match CommandResponse_Error res with
  | Some err =>
      mret (renderTemplate errWithLogTmpl
              (valueOf {| ErrData_Error := err; ErrData_CommonData := common |}))
  | None =>
      if negb (String.eqb (CommandResponse_Failure res) "") then
        mret (renderTemplate failureWithLogTmpl
                (valueOf {| FailureData_Failure := CommandResponse_Failure res;
                            FailureData_CommonData := common |}))
      else renderProjectResults m (CommandResponse_ProjectResults res) common
  end.

End Renderer.

End Renderer.
Import Renderer.

(** ** The documents of the specification

    The closed forms that the specification gives for the output of
    [Render] (sections 4.1, 4.1.1 and 8), the texts being those of the
    templates, and for its effect on the store.  [Render] is proved equal
    to them in [Render_spec]. *)

(** Specification, section 4.1.1: the log section that ends every document,
    the collapsible block when [verbose] is set, and the final line feed of
    [logTmpl]. *)
Definition logBlock (log : string) : string :=
  lit "\n<details><summary>Log</summary>\n  <p>\n\n```\n" +:+ log +:+ lit "```\n</p></details>".

Definition logSection (verbose : bool) (log : string) : string :=
  (if verbose then logBlock log else "") +:+ lit "\n".

(** The nodes of [logTmpl] at the end of a parsed template. *)
Definition logNodes : list node :=
  [NIf (EField "Verbose")
     [NText (lit "\n<details><summary>Log</summary>\n  <p>\n\n```\n");
      NAction (EField "Log");
      NText (lit "```\n</p></details>")];
   NText (lit "\n")].

(** Specification, section 4.1.1: the fragment of one project result.  The
    variant is the first populated one among error, failure, plan success
    and apply success; the discard link of a plan is the URL built from its
    lock key. *)
Definition fragment (builder : string → string) (command : string)
    (h : loc → PlanSuccess) (r : ProjectResult) : string :=
  match ProjectResult_Error r with
  | Some err =>
      lit "**" +:+ command +:+ lit " Error**\n```\n" +:+ err +:+ lit "\n```\n"
  | None =>
      if negb (String.eqb (ProjectResult_Failure r) "") then
        lit "**" +:+ command +:+ " Failed**: " +:+ ProjectResult_Failure r +:+ lit "\n"
      else
        match ProjectResult_PlanSuccess r with
        | Some p =>
            lit "```diff\n" +:+ PlanSuccess_TerraformOutput (h p) +:+
            lit "\n```\n\n* To **discard** this plan click [here](" +:+
            builder (PlanSuccess_LockKey (h p)) +:+ ")."
        | None =>
            if negb (String.eqb (ProjectResult_ApplySuccess r) "") then
              lit "```diff\n" +:+ ProjectResult_ApplySuccess r +:+ lit "\n```"
            else "Found no template. This is a bug!"
        end
  end.

(** The plan that the loop renders for a result: the one it points to, when
    neither an error nor a failure is populated. *)
Definition renderedPlan (r : ProjectResult) : option loc :=
  match ProjectResult_Error r with
  | Some _ => None
  | None =>
      if negb (String.eqb (ProjectResult_Failure r) "") then None
      else ProjectResult_PlanSuccess r
  end.

Definition withLockURL (url : string) (plan : PlanSuccess) : PlanSuccess :=
  {| PlanSuccess_TerraformOutput := PlanSuccess_TerraformOutput plan;
     PlanSuccess_LockURL := url;
     PlanSuccess_LockKey := PlanSuccess_LockKey plan |}.

(** The store after one project result has been rendered. *)
Definition rendered (m : MarkdownRenderer) (σ : Store) (r : ProjectResult) : Store :=
  match renderedPlan r with
  | Some p =>
      let key := PlanSuccess_LockKey (heap σ p) in
      {| heap := <[p := withLockURL (LockURLBuilder m key) (heap σ p)]> (heap σ);
         calls := calls σ ++ [key] |}
  | None => σ
  end.

(** The map from path to fragment after the loop: a later result replaces
    an earlier one with the same path. *)
Definition fragments (builder : string → string) (command : string)
    (h : loc → PlanSuccess) (rs : list ProjectResult)
    (results : gmap string string) : gmap string string :=
  foldl (λ acc r, <[ProjectResult_Path r := fragment builder command h r]> acc) results rs.

(** Two heaps that hold the same diff text and lock key at every address. *)
Definition samePlans (h h' : loc → PlanSuccess) : Prop :=
  ∀ p, PlanSuccess_TerraformOutput (h' p) = PlanSuccess_TerraformOutput (h p)
       ∧ PlanSuccess_LockKey (h' p) = PlanSuccess_LockKey (h p).

(** One entry of the list of paths, and the section of one path. *)
Definition bullet (path : string) : string := " * `" +:+ path +:+ lit "`\n".

Definition section (path fragment : string) : string :=
  "## " +:+ path +:+ lit "/\n" +:+ fragment +:+ lit "\n---\n".

(** Results ordered by path. *)
Definition byPath (r1 r2 : ProjectResult) : Prop :=
  String.le (ProjectResult_Path r1) (ProjectResult_Path r2).

Global Instance byPath_dec : RelDecision byPath :=
  λ r1 r2, decide (String.le (ProjectResult_Path r1) (ProjectResult_Path r2)).

Definition sortByPath (rs : list ProjectResult) : list ProjectResult :=
  merge_sort byPath rs.

(** Specification, section 4.1.1: the document for a map of fragments, the
    keys taken in increasing order.  One entry: the fragment alone.
    Otherwise: the banner, the bullets and the sections. *)
Definition projectsDocument (command : string) (verbose : bool) (log : string)
    (results : gmap string string) : string :=
  let keys := sortKeys (map_to_list results).*1 in
  if size results =? 1 then
    concat ((λ path, results !!! path) <$> keys) +:+ lit "\n" +:+
    logSection verbose log
  else
    "Ran " +:+ command +:+ " in " +:+ pretty (Z.of_nat (size results)) +:+
    lit " directories:\n" +:+
    concat (bullet <$> keys) +:+ lit "\n" +:+
    concat ((λ path, section path (results !!! path)) <$> keys) +:+
    logSection verbose log.

(** Specification, section 4.1: the document of a response. *)
Definition document (builder : string → string) (command : string)
    (verbose : bool) (log : string) (h : loc → PlanSuccess)
    (res : CommandResponse) : string :=
  match CommandResponse_Error res with
  | Some err =>
      lit "**" +:+ command +:+ lit " Error**\n```\n" +:+ err +:+ lit "\n```\n" +:+
      logSection verbose log
  | None =>
      if negb (String.eqb (CommandResponse_Failure res) "") then
        lit "**" +:+ command +:+ " Failed**: " +:+ CommandResponse_Failure res +:+
        lit "\n" +:+ logSection verbose log
      else
        projectsDocument command verbose log
          (fragments builder command h (CommandResponse_ProjectResults res) ∅)
  end.

(** The results whose plan is rendered, in order: none when the response
    has a top-level error or failure. *)
Definition renderedResults (res : CommandResponse) : list ProjectResult :=
  match CommandResponse_Error res with
  | Some _ => []
  | None =>
      if negb (String.eqb (CommandResponse_Failure res) "") then []
      else CommandResponse_ProjectResults res
  end.

(** The lock keys with which the builder is called while the results [rs]
    are rendered, in order. *)
Definition lockKeys (h : loc → PlanSuccess) (rs : list ProjectResult) : list string :=
  (λ p, PlanSuccess_LockKey (h p)) <$> omap renderedPlan rs.

(** ** Sample inputs *)

Module Sample.

(** Modelled from the spec: the type [CommandName] and its method [String]
    are declared outside src/.  The two command kinds of the glossary. *)
Inductive CommandName : Type := Apply | Plan.

Definition CommandName_String (c : CommandName) : string :=
  match c with
  | Apply => "apply"
  | Plan => "plan"
  end.

Definition toUpper (c : ascii) : ascii :=
  let n := nat_of_ascii c in
  if (97 <=? n) && (n <=? 122) then ascii_of_nat (n - 32) else c.

Fixpoint Title_from (prev : ascii) (s : string) : string :=
  match s with
  | "" => ""
  | String c s' =>
      String (if isAlphaNumeric prev then c else toUpper c) (Title_from c s')
  end.

(** [strings.Title] on ASCII text: the letter that begins a word is mapped
    to upper case. *)
Definition strings_Title (s : string) : string := Title_from " " s.

(** Two enumerations of the keys of a map: an order and its reverse. *)
Definition forwards : MapIteration :=
  {| MapKeys := λ m, (map_to_list m).*1;
     MapKeys_perm := λ m, reflexivity _ |}.

Definition backwards : MapIteration :=
  {| MapKeys := λ m, reverse (map_to_list m).*1;
     MapKeys_perm := λ m, reverse_Permutation _ |}.

Definition renderer : MarkdownRenderer :=
  {| LockURLBuilder := λ key, "http://x/" +:+ key |}.

(** A heap with a plan for lock key L1 at address 1 and a plan for lock key
    L2 everywhere else; no discard URL has been stored yet. *)
Definition store : Store :=
  {| heap := λ p, if decide (p = 1%positive)
                  then {| PlanSuccess_TerraformOutput := "+ resource";
                          PlanSuccess_LockURL := "";
                          PlanSuccess_LockKey := "L1" |}
                  else {| PlanSuccess_TerraformOutput := "- resource";
                          PlanSuccess_LockURL := "";
                          PlanSuccess_LockKey := "L2" |};
     calls := [] |}.

Definition planResult (path : string) (p : loc) : ProjectResult :=
  {| ProjectResult_Path := path; ProjectResult_Error := None;
     ProjectResult_Failure := ""; ProjectResult_PlanSuccess := Some p;
     ProjectResult_ApplySuccess := "" |}.

Definition applyResult (path output : string) : ProjectResult :=
  {| ProjectResult_Path := path; ProjectResult_Error := None;
     ProjectResult_Failure := ""; ProjectResult_PlanSuccess := None;
     ProjectResult_ApplySuccess := output |}.

Definition emptyResult (path : string) : ProjectResult :=
  {| ProjectResult_Path := path; ProjectResult_Error := None;
     ProjectResult_Failure := ""; ProjectResult_PlanSuccess := None;
     ProjectResult_ApplySuccess := "" |}.

Definition projects (rs : list ProjectResult) : CommandResponse :=
  {| CommandResponse_Error := None; CommandResponse_Failure := "";
     CommandResponse_ProjectResults := rs |}.

Definition topLevelError (msg : string) : CommandResponse :=
  {| CommandResponse_Error := Some msg; CommandResponse_Failure := "";
     CommandResponse_ProjectResults := [] |}.

Definition topLevelFailure (msg : string) : CommandResponse :=
  {| CommandResponse_Error := None; CommandResponse_Failure := msg;
     CommandResponse_ProjectResults := [] |}.

(** [Render] of the sample renderer. *)
Definition render (iteration : MapIteration) :=
  Render (iteration := iteration) CommandName CommandName_String strings_Title renderer.

End Sample.

(** ** Further descriptions of the output *)

(** The response with other project results. *)
Definition withProjectResults (res : CommandResponse) (rs : list ProjectResult)
    : CommandResponse :=
  {| CommandResponse_Error := CommandResponse_Error res;
     CommandResponse_Failure := CommandResponse_Failure res;
     CommandResponse_ProjectResults := rs |}.

(** The results that no later result with the same path follows. *)
Fixpoint keepLast (rs : list ProjectResult) : list ProjectResult :=
  match rs with
  | [] => []
  | r :: rs' =>
      if decide (ProjectResult_Path r ∈ ProjectResult_Path <$> rs')
      then keepLast rs'
      else r :: keepLast rs'
  end.

(** The last result with a given path. *)
Fixpoint lastWithPath (path : string) (rs : list ProjectResult)
    : option ProjectResult :=
  match rs with
  | [] => None
  | r :: rs' =>
      match lastWithPath path rs' with
      | Some r' => Some r'
      | None => if String.eqb (ProjectResult_Path r) path then Some r else None
      end
  end.

(** The document without its log section. *)
Definition projectsBody (command : string) (results : gmap string string) : string :=
  let keys := sortKeys (map_to_list results).*1 in
  if size results =? 1 then
    concat ((λ path, results !!! path) <$> keys) +:+ lit "\n"
  else
    "Ran " +:+ command +:+ " in " +:+ pretty (Z.of_nat (size results)) +:+
    lit " directories:\n" +:+
    concat (bullet <$> keys) +:+ lit "\n" +:+
    concat ((λ path, section path (results !!! path)) <$> keys).

Definition documentBody (builder : string → string) (command : string)
    (h : loc → PlanSuccess) (res : CommandResponse) : string :=
  match CommandResponse_Error res with
  | Some err =>
      lit "**" +:+ command +:+ lit " Error**\n```\n" +:+ err +:+ lit "\n```\n"
  | None =>
      if negb (String.eqb (CommandResponse_Failure res) "") then
        lit "**" +:+ command +:+ " Failed**: " +:+ CommandResponse_Failure res +:+
        lit "\n"
      else
        projectsBody command
          (fragments builder command h (CommandResponse_ProjectResults res) ∅)
  end.





(** The store of [Sample.store] after an earlier rendering left a discard
    URL in every plan. *)
Definition staleStore : Store :=
  {| heap := λ p, withLockURL "http://stale/" (heap Sample.store p);
     calls := ["L9"] |}.

(** A result in which every variant is populated. *)
Definition crowdedResult : ProjectResult :=
  {| ProjectResult_Path := "a"; ProjectResult_Error := Some "boom";
     ProjectResult_Failure := "failed"; ProjectResult_PlanSuccess := Some 1%positive;
     ProjectResult_ApplySuccess := "done" |}.

(** * Proofs *)

(** ** Strings *)

Module GoStringFacts.

Lemma append_assoc (s1 s2 s3 : string) :
  (s1 +:+ s2) +:+ s3 = s1 +:+ s2 +:+ s3.
Proof.
  induction s1 as [|c s1 IH]; [done|].
  change (String c ((s1 +:+ s2) +:+ s3) = String c (s1 +:+ s2 +:+ s3)).
  by rewrite IH.
Qed.

Lemma append_nil_r (s : string) : s +:+ "" = s.
Proof.
  induction s as [|c s IH]; [done|].
  change (String c (s +:+ "") = String c s). by rewrite IH.
Qed.

Lemma contains_prefix (s post : string) : contains s (s +:+ post).
Proof. by exists "", post. Qed.

Lemma contains_append_r (s pre t : string) :
  contains s t → contains s (pre +:+ t).
Proof.
  intros (p & q & ->). exists (pre +:+ p), q. by rewrite append_assoc.
Qed.

Lemma contains_append_l (s t post : string) :
  contains s t → contains s (t +:+ post).
Proof.
  intros (p & q & ->). exists p, (q +:+ post). by rewrite !append_assoc.
Qed.

Lemma contains_refl (s : string) : contains s s.
Proof. exists "", "". by rewrite append_nil_r. Qed.

End GoStringFacts.
Import GoStringFacts.

(** ** What the templates write *)

Section templates.
Context {iteration : MapIteration}.

Lemma singleProjectTmpl_nodes :
  singleProjectTmpl =
    NRange ["result"] (EField "Results") [NAction (EVar "result")]
    :: NText (lit "\n") :: logNodes.
Proof. vm_compute. reflexivity. Qed.

Lemma multiProjectTmpl_nodes :
  multiProjectTmpl =
    NText "Ran " :: NAction (EField "Command") :: NText " in "
    :: NAction (ELen (EField "Results")) :: NText (lit " directories:\n")
    :: NRange ["path"; "result"] (EField "Results")
         [NText " * `"; NAction (EVar "path"); NText (lit "`\n")]
    :: NText (lit "\n")
    :: NRange ["path"; "result"] (EField "Results")
         [NText "## "; NAction (EVar "path"); NText (lit "/\n");
          NAction (EVar "result"); NText (lit "\n---\n")]
    :: logNodes.
Proof. vm_compute. reflexivity. Qed.

(** Every template of the file parses: [template.Must] never panics. *)
Lemma templates_parse :
  Forall (λ text, Parse text = Ok (Must (Parse text)))
    [lit "{{ range $result := .Results }}{{$result}}{{end}}\n" +:+ logTmpl;
     lit "Ran {{.Command}} in {{ len .Results }} directories:\n" +:+
     lit "{{ range $path, $result := .Results }}" +:+
     lit " * `{{$path}}`\n" +:+
     lit "{{end}}\n" +:+
     lit "{{ range $path, $result := .Results }}" +:+
     lit "## {{$path}}/\n" +:+
     lit "{{$result}}\n" +:+
     lit "---\n{{end}}" +:+
     logTmpl;
     lit "```diff\n" +:+ lit "{{.TerraformOutput}}\n" +:+ lit "```\n\n" +:+
     lit "* To **discard** this plan click [here]({{.LockURL}}).";
     lit "```diff\n" +:+ lit "{{.Output}}\n" +:+ lit "```";
     errTmplText; errTmplText +:+ logTmpl;
     failureTmplText; failureTmplText +:+ logTmpl].
Proof. repeat constructor. Qed.

Lemma Execute_errTmpl (command err : string) :
  Execute errTmpl (structOf [Field "Command" false (VString command);
                             Field "Error" false (VString err)])
  = Ok (lit "**" +:+ command +:+ lit " Error**\n```\n" +:+ err +:+ lit "\n```\n").
Proof. vm_compute. reflexivity. Qed.

Lemma Execute_failureTmpl (command failure : string) :
  Execute failureTmpl (structOf [Field "Command" false (VString command);
                                 Field "Failure" false (VString failure)])
  = Ok (lit "**" +:+ command +:+ " Failed**: " +:+ failure +:+ lit "\n").
Proof. vm_compute. reflexivity. Qed.

Lemma Execute_planSuccessTmpl (plan : PlanSuccess) :
  Execute planSuccessTmpl (valueOf plan)
  = Ok (lit "```diff\n" +:+ PlanSuccess_TerraformOutput plan +:+
        lit "\n```\n\n* To **discard** this plan click [here](" +:+
        PlanSuccess_LockURL plan +:+ ").").
Proof. destruct plan. vm_compute. reflexivity. Qed.

Lemma Execute_applySuccessTmpl (output : string) :
  Execute applySuccessTmpl (structOf [Field "Output" false (VString output)])
  = Ok (lit "```diff\n" +:+ output +:+ lit "\n```").
Proof. vm_compute. reflexivity. Qed.

Lemma Execute_errWithLogTmpl (err command log : string) (verbose : bool) :
  Execute errWithLogTmpl
    (valueOf {| ErrData_Error := err;
                ErrData_CommonData := {| CommonData_Command := command;
                                         CommonData_Verbose := verbose;
                                         CommonData_Log := log |} |})
  = Ok (lit "**" +:+ command +:+ lit " Error**\n```\n" +:+ err +:+ lit "\n```\n" +:+
        logSection verbose log).
Proof. destruct verbose; vm_compute; reflexivity. Qed.

Lemma Execute_failureWithLogTmpl (failure command log : string) (verbose : bool) :
  Execute failureWithLogTmpl
    (valueOf {| FailureData_Failure := failure;
                FailureData_CommonData := {| CommonData_Command := command;
                                             CommonData_Verbose := verbose;
                                             CommonData_Log := log |} |})
  = Ok (lit "**" +:+ command +:+ " Failed**: " +:+ failure +:+ lit "\n" +:+
        logSection verbose log).
Proof. destruct verbose; vm_compute; reflexivity. Qed.

Lemma walkKeys_Ok (iter : string → result string) (write : string → string)
    (keys : list string) :
  (∀ k, iter k = Ok (write k)) →
  walkKeys iter keys = Ok (concat (write <$> keys)).
Proof.
  intros Hiter. induction keys as [|k keys IH]; [done|].
  cbn [walkKeys fmap list_fmap concat] in *. by rewrite Hiter, IH.
Qed.

Lemma walk_logNodes (results : gmap string string) (command log : string)
    (verbose : bool) (vars : list (string * value)) :
  walkList
    (walk (valueOf {| ResultData_Results := results;
                      ResultData_CommonData := {| CommonData_Command := command;
                                                  CommonData_Verbose := verbose;
                                                  CommonData_Log := log |} |}) vars)
    logNodes
  = Ok (logSection verbose log).
Proof. destruct verbose; vm_compute; reflexivity. Qed.

Lemma Execute_singleProjectTmpl (results : gmap string string)
    (command log : string) (verbose : bool) :
  Execute singleProjectTmpl
    (valueOf {| ResultData_Results := results;
                ResultData_CommonData := {| CommonData_Command := command;
                                            CommonData_Verbose := verbose;
                                            CommonData_Log := log |} |})
  = Ok (concat ((λ path, results !!! path) <$> sortKeys (MapKeys results)) +:+
        lit "\n" +:+ logSection verbose log).
Proof.
  rewrite singleProjectTmpl_nodes. unfold Execute.
  cbn [walkList walk].
  change (eval _ _ (EField "Results")) with (Ok (VMap results)).
  cbn [mbind result_bind].
  erewrite walkKeys_Ok; last first.
  { intros path. cbn. rewrite append_nil_r. reflexivity. }
  by rewrite walk_logNodes.
Qed.

Lemma Execute_multiProjectTmpl (results : gmap string string)
    (command log : string) (verbose : bool) :
  Execute multiProjectTmpl
    (valueOf {| ResultData_Results := results;
                ResultData_CommonData := {| CommonData_Command := command;
                                            CommonData_Verbose := verbose;
                                            CommonData_Log := log |} |})
  = Ok ("Ran " +:+ command +:+ " in " +:+ pretty (Z.of_nat (size results)) +:+
        lit " directories:\n" +:+
        concat ((λ path, " * `" +:+ path +:+ lit "`\n") <$> sortKeys (MapKeys results)) +:+
        lit "\n" +:+
        concat ((λ path, "## " +:+ path +:+ lit "/\n" +:+ results !!! path +:+ lit "\n---\n")
                  <$> sortKeys (MapKeys results)) +:+
        logSection verbose log).
Proof.
  rewrite multiProjectTmpl_nodes. unfold Execute.
  cbn [walkList walk].
  change (eval _ _ (EField "Results")) with (Ok (VMap results)).
  change (eval _ _ (EField "Command")) with (Ok (VString command)).
  change (eval _ _ (ELen (EField "Results")))
    with (Ok (VInt (Z.of_nat (size results)))).
  cbn [mbind result_bind fmap result_fmap printValue].
  erewrite walkKeys_Ok; last first.
  { intros path. cbn. reflexivity. }
  erewrite walkKeys_Ok; last first.
  { intros path. cbn. reflexivity. }
  by rewrite walk_logNodes.
Qed.

End templates.

(** ** The loop over the project results *)

Section loop.
Context {iteration : MapIteration}.

Lemma sortKeys_MapKeys (m : gmap string string) :
  sortKeys (MapKeys m) = sortKeys (map_to_list m).*1.
Proof.
  apply (Sorted_unique String.le); try apply Sorted_merge_sort; try apply _.
  unfold sortKeys. rewrite !merge_sort_Permutation. apply MapKeys_perm.
Qed.

Lemma samePlans_refl (h : loc → PlanSuccess) : samePlans h h.
Proof. by intros p. Qed.

Lemma samePlans_trans (h1 h2 h3 : loc → PlanSuccess) :
  samePlans h1 h2 → samePlans h2 h3 → samePlans h1 h3.
Proof.
  intros H12 H23 p. destruct (H12 p) as [? ?], (H23 p) as [? ?].
  split; congruence.
Qed.

Lemma samePlans_rendered (m : MarkdownRenderer) (σ : Store) (r : ProjectResult) :
  samePlans (heap σ) (heap (rendered m σ r)).
Proof.
  unfold rendered. destruct (renderedPlan r) as [p|]; [|apply samePlans_refl].
  intros q. cbn. destruct (decide (p = q)) as [->|Hne].
  - by rewrite fn_lookup_insert.
  - by rewrite fn_lookup_insert_ne.
Qed.

Lemma samePlans_foldl_rendered (m : MarkdownRenderer) (rs : list ProjectResult)
    (σ : Store) :
  samePlans (heap σ) (heap (foldl (rendered m) σ rs)).
Proof.
  revert σ. induction rs as [|r rs IH]; intros σ; [apply samePlans_refl|].
  cbn [foldl]. eapply samePlans_trans; [apply samePlans_rendered|apply IH].
Qed.

Lemma fragment_samePlans (builder : string → string) (command : string)
    (h h' : loc → PlanSuccess) (r : ProjectResult) :
  samePlans h h' → fragment builder command h' r = fragment builder command h r.
Proof.
  intros Hsame. unfold fragment.
  destruct (ProjectResult_PlanSuccess r) as [p|]; [|done].
  destruct (Hsame p) as [-> ->]. done.
Qed.

Lemma fragments_samePlans (builder : string → string) (command : string)
    (h h' : loc → PlanSuccess) (rs : list ProjectResult)
    (results : gmap string string) :
  samePlans h h' →
  fragments builder command h' rs results = fragments builder command h rs results.
Proof.
  intros Hsame. revert results. unfold fragments.
  induction rs as [|r rs IH]; intros results; [done|].
  cbn [foldl]. by rewrite IH, (fragment_samePlans _ _ h h').
Qed.

Lemma renderProjectResult_spec (m : MarkdownRenderer) (common : CommonData)
    (r : ProjectResult) (results : gmap string string) (σ : Store) :
  renderProjectResult m common r results σ
  = (<[ProjectResult_Path r :=
        fragment (LockURLBuilder m) (CommonData_Command common) (heap σ) r]> results,
     rendered m σ r).
Proof.
  unfold renderProjectResult, renderTemplate, fragment, rendered, renderedPlan.
  destruct (ProjectResult_Error r) as [err|].
  { by rewrite Execute_errTmpl. }
  destruct (negb (String.eqb (ProjectResult_Failure r) "")).
  { by rewrite Execute_failureTmpl. }
  destruct (ProjectResult_PlanSuccess r) as [p|].
  { unfold mbind, M_bind, load, callLockURLBuilder, storeLockURL, mret, M_ret.
    cbn [heap calls]. rewrite fn_lookup_insert, Execute_planSuccessTmpl. done. }
  destruct (negb (String.eqb (ProjectResult_ApplySuccess r) "")).
  { by rewrite Execute_applySuccessTmpl. }
  done.
Qed.

Lemma rangeProjectResults_spec (m : MarkdownRenderer) (common : CommonData)
    (rs : list ProjectResult) (results : gmap string string) (σ : Store) :
  rangeProjectResults m common rs results σ
  = (fragments (LockURLBuilder m) (CommonData_Command common) (heap σ) rs results,
     foldl (rendered m) σ rs).
Proof.
  revert results σ. induction rs as [|r rs IH]; intros results σ; [done|].
  cbn [rangeProjectResults]. unfold mbind, M_bind.
  rewrite renderProjectResult_spec, IH.
  rewrite (fragments_samePlans _ _ (heap σ) (heap (rendered m σ r)))
    by apply samePlans_rendered.
  done.
Qed.

Lemma renderProjectResults_spec (m : MarkdownRenderer)
    (rs : list ProjectResult) (common : CommonData) (σ : Store) :
  renderProjectResults m rs common σ
  = (projectsDocument (CommonData_Command common) (CommonData_Verbose common)
       (CommonData_Log common)
       (fragments (LockURLBuilder m) (CommonData_Command common) (heap σ) rs ∅),
     foldl (rendered m) σ rs).
Proof.
  unfold renderProjectResults, renderTemplate, mbind, M_bind.
  rewrite rangeProjectResults_spec. unfold projectsDocument.
  destruct common as [command verbose log]. cbn [CommonData_Command
    CommonData_Verbose CommonData_Log mret M_ret].
  destruct (size _ =? 1).
  - by rewrite Execute_singleProjectTmpl, sortKeys_MapKeys.
  - by rewrite Execute_multiProjectTmpl, sortKeys_MapKeys.
Qed.

Section Render.
Variable CommandName : Type.
Variable CommandName_String : CommandName → string.
Variable strings_Title : string → string.

(** [Render] returns the document of the response and leaves the store
    that rendering each result in turn leaves. *)
Lemma Render_spec (m : MarkdownRenderer) (res : CommandResponse)
    (cmdName : CommandName) (log : string) (verbose : bool) (σ : Store) :
  Render CommandName CommandName_String strings_Title m res cmdName log verbose σ
  = (document (LockURLBuilder m) (strings_Title (CommandName_String cmdName))
       verbose log (heap σ) res,
     foldl (rendered m) σ (renderedResults res)).
Proof.
  unfold Render, renderTemplate, document, renderedResults.
  destruct (CommandResponse_Error res) as [err|].
  { by rewrite Execute_errWithLogTmpl. }
  destruct (negb (String.eqb (CommandResponse_Failure res) "")).
  { by rewrite Execute_failureWithLogTmpl. }
  by rewrite renderProjectResults_spec.
Qed.

End Render.
End loop.

(** ** The map of fragments *)

Section fragments.
Variable builder : string → string.
Variable command : string.
Variable h : loc → PlanSuccess.

Lemma fragments_cons (r : ProjectResult) (rs : list ProjectResult)
    (results : gmap string string) :
  fragments builder command h (r :: rs) results
  = fragments builder command h rs
      (<[ProjectResult_Path r := fragment builder command h r]> results).
Proof. done. Qed.

Lemma fragments_lookup_notin (rs : list ProjectResult)
    (results : gmap string string) (path : string) :
  path ∉ ProjectResult_Path <$> rs →
  fragments builder command h rs results !! path = results !! path.
Proof.
  revert results. induction rs as [|r rs IH]; intros results Hnotin; [done|].
  rewrite fmap_cons in Hnotin. apply not_elem_of_cons in Hnotin as [Hne Hnotin].
  rewrite fragments_cons, IH by done. by apply lookup_insert_ne.
Qed.

Lemma fragments_lookup_in (rs : list ProjectResult)
    (results : gmap string string) (r : ProjectResult) :
  NoDup (ProjectResult_Path <$> rs) → r ∈ rs →
  fragments builder command h rs results !! ProjectResult_Path r
  = Some (fragment builder command h r).
Proof.
  revert results. induction rs as [|r0 rs IH]; intros results Hnodup Hin.
  { by apply elem_of_nil in Hin. }
  rewrite fmap_cons in Hnodup.
  pose proof (NoDup_cons_1_1 _ _ Hnodup) as Hnotin.
  apply NoDup_cons_1_2 in Hnodup.
  rewrite fragments_cons. apply elem_of_cons in Hin as [->|Hin].
  - rewrite fragments_lookup_notin by done. apply lookup_insert_eq.
  - by apply IH.
Qed.

Lemma fragments_dom (rs : list ProjectResult) (results : gmap string string) :
  dom (fragments builder command h rs results)
  = list_to_set (ProjectResult_Path <$> rs) ∪ dom results.
Proof.
  revert results. induction rs as [|r rs IH]; intros results.
  { cbn. by rewrite union_empty_l_L. }
  rewrite fragments_cons, IH, dom_insert_L, fmap_cons, list_to_set_cons.
  by rewrite (assoc_L (∪)), (comm_L (∪) (list_to_set _) {[_]}).
Qed.

Lemma fragments_size (rs : list ProjectResult) :
  NoDup (ProjectResult_Path <$> rs) →
  size (fragments builder command h rs ∅) = length rs.
Proof.
  intros Hnodup. rewrite <- size_dom, fragments_dom, dom_empty_L, union_empty_r_L.
  by rewrite size_list_to_set, length_fmap.
Qed.

Lemma fragments_keys (rs : list ProjectResult) :
  NoDup (ProjectResult_Path <$> rs) →
  (map_to_list (fragments builder command h rs ∅)).*1 ≡ₚ ProjectResult_Path <$> rs.
Proof.
  intros Hnodup. apply NoDup_Permutation; [apply NoDup_fst_map_to_list|done|].
  intros path. rewrite <- (elem_of_list_to_set (C := gset string)).
  rewrite <- dom_alt, fragments_dom, dom_empty_L, union_empty_r_L.
  by rewrite elem_of_list_to_set.
Qed.

Global Instance byPath_total : Total byPath.
Proof. intros r1 r2. unfold byPath. apply total, _. Qed.

Lemma sortByPath_Permutation (rs : list ProjectResult) : sortByPath rs ≡ₚ rs.
Proof. apply merge_sort_Permutation. Qed.

(** The keys of the map in increasing order are the paths of the results
    in increasing order. *)
Lemma fragments_sortKeys (rs : list ProjectResult) :
  NoDup (ProjectResult_Path <$> rs) →
  sortKeys (map_to_list (fragments builder command h rs ∅)).*1
  = ProjectResult_Path <$> sortByPath rs.
Proof.
  intros Hnodup. apply (Sorted_unique String.le).
  - apply Sorted_merge_sort, _.
  - apply (Sorted_fmap _ byPath); [done|]. apply Sorted_merge_sort, _.
  - unfold sortKeys. rewrite merge_sort_Permutation, fragments_keys by done.
    by rewrite sortByPath_Permutation.
Qed.

Lemma fragments_lookup_total (rs : list ProjectResult) (r : ProjectResult) :
  NoDup (ProjectResult_Path <$> rs) → r ∈ rs →
  fragments builder command h rs ∅ !!! ProjectResult_Path r
  = fragment builder command h r.
Proof.
  intros Hnodup Hin. apply lookup_total_correct. by apply fragments_lookup_in.
Qed.

End fragments.

Lemma contains_concat {A : Type} (write : A → string) (x : A) (l : list A) :
  x ∈ l → contains (write x) (concat (write <$> l)).
Proof.
  induction l as [|y l IH]; intros Hin; [by apply elem_of_nil in Hin|].
  cbn [fmap list_fmap concat]. apply elem_of_cons in Hin as [->|Hin].
  - apply contains_prefix.
  - by apply contains_append_r, IH.
Qed.

(** The document of a response with several results of distinct paths. *)
Lemma projectsDocument_multi (builder : string → string) (command : string)
    (verbose : bool) (log : string) (h : loc → PlanSuccess)
    (rs : list ProjectResult) :
  NoDup (ProjectResult_Path <$> rs) → length rs ≠ 1 →
  projectsDocument command verbose log (fragments builder command h rs ∅)
  = "Ran " +:+ command +:+ " in " +:+ pretty (Z.of_nat (length rs)) +:+
    lit " directories:\n" +:+
    concat ((λ r, bullet (ProjectResult_Path r)) <$> sortByPath rs) +:+ lit "\n" +:+
    concat ((λ r, section (ProjectResult_Path r) (fragment builder command h r))
              <$> sortByPath rs) +:+
    logSection verbose log.
Proof.
  intros Hnodup Hlen. unfold projectsDocument.
  rewrite fragments_size, fragments_sortKeys by done.
  destruct (Nat.eqb_spec (length rs) 1) as [?|_]; [done|].
  rewrite <- !list_fmap_compose.
  rewrite (list_fmap_ext
             ((λ path, section path (fragments builder command h rs ∅ !!! path))
              ∘ ProjectResult_Path)
             (λ r, section (ProjectResult_Path r) (fragment builder command h r))
             (sortByPath rs)); [done|].
  intros i r Hr. cbn. rewrite fragments_lookup_total; [done..|].
  rewrite <- (sortByPath_Permutation rs). by eapply list_elem_of_lookup_2.
Qed.

(** The document of a response with one result. *)
Lemma projectsDocument_single (builder : string → string) (command : string)
    (verbose : bool) (log : string) (h : loc → PlanSuccess) (r : ProjectResult) :
  projectsDocument command verbose log (fragments builder command h [r] ∅)
  = fragment builder command h r +:+ lit "\n" +:+ logSection verbose log.
Proof.
  unfold projectsDocument, fragments. cbn [foldl].
  rewrite insert_empty, map_size_singleton, map_to_list_singleton.
  cbn [fmap list_fmap fst Nat.eqb]. change (sortKeys [?k]) with [k].
  cbn [fmap list_fmap concat]. by rewrite lookup_total_singleton_eq, append_nil_r.
Qed.

Lemma contains_trans (s t u : string) :
  contains s t → contains t u → contains s u.
Proof.
  intros Hst (p & q & ->). by apply contains_append_r, contains_append_l.
Qed.

Lemma contains_section (path fragment : string) :
  contains fragment (section path fragment).
Proof. unfold section. do 3 apply contains_append_r. apply contains_prefix. Qed.

(** With distinct paths every result has its fragment in the document, and
    its section when the template for several projects is used. *)
Lemma fragment_in_projectsDocument (builder : string → string) (command : string)
    (verbose : bool) (log : string) (h : loc → PlanSuccess)
    (rs : list ProjectResult) (r : ProjectResult) :
  NoDup (ProjectResult_Path <$> rs) → r ∈ rs →
  let doc := projectsDocument command verbose log (fragments builder command h rs ∅) in
  contains (fragment builder command h r) doc
  ∧ (length rs ≠ 1 →
     contains (section (ProjectResult_Path r) (fragment builder command h r)) doc).
Proof.
  intros Hnodup Hin doc.
  assert (length rs ≠ 1 →
          contains (section (ProjectResult_Path r) (fragment builder command h r)) doc)
    as Hsection.
  { intros Hlen. subst doc. rewrite projectsDocument_multi by done.
    do 7 apply contains_append_r. apply contains_append_l.
    apply (contains_concat
             (λ r, section (ProjectResult_Path r) (fragment builder command h r))).
    by rewrite sortByPath_Permutation. }
  split; [|done]. destruct (decide (length rs = 1)) as [Hlen|Hlen].
  - destruct rs as [|r0 [|? ?]]; try done.
    apply list_elem_of_singleton in Hin as ->.
    subst doc. rewrite projectsDocument_single. apply contains_prefix.
  - eapply contains_trans; [apply contains_section|by apply Hsection].
Qed.

Lemma lockKeys_samePlans (h h' : loc → PlanSuccess) (rs : list ProjectResult) :
  samePlans h h' → lockKeys h' rs = lockKeys h rs.
Proof.
  intros Hsame. unfold lockKeys. apply list_fmap_ext. intros _ p _.
  by destruct (Hsame p) as [_ ->].
Qed.

Lemma rendered_calls (m : MarkdownRenderer) (σ : Store) (r : ProjectResult) :
  calls (rendered m σ r) = calls σ ++ lockKeys (heap σ) [r].
Proof.
  unfold rendered, lockKeys. cbn [omap list_omap].
  destruct (renderedPlan r) as [p|]; cbn; [done|]. by rewrite app_nil_r.
Qed.

Lemma foldl_rendered_calls (m : MarkdownRenderer) (rs : list ProjectResult)
    (σ : Store) :
  calls (foldl (rendered m) σ rs) = calls σ ++ lockKeys (heap σ) rs.
Proof.
  revert σ. induction rs as [|r rs IH]; intros σ.
  { cbn. by rewrite app_nil_r. }
  cbn [foldl]. rewrite IH, rendered_calls, <- app_assoc. f_equal.
  rewrite (lockKeys_samePlans (heap σ) (heap (rendered m σ r)))
    by apply samePlans_rendered.
  unfold lockKeys. by rewrite <- fmap_app, <- omap_app.
Qed.

Lemma rendered_LockURL (m : MarkdownRenderer) (σ : Store) (r : ProjectResult)
    (p : loc) :
  PlanSuccess_LockURL (heap (rendered m σ r) p)
  = if decide (renderedPlan r = Some p)
    then LockURLBuilder m (PlanSuccess_LockKey (heap σ p))
    else PlanSuccess_LockURL (heap σ p).
Proof.
  unfold rendered. destruct (renderedPlan r) as [q|]; [|by case_decide].
  cbn [heap]. case_decide as Hq.
  - injection Hq as ->. by rewrite fn_lookup_insert.
  - rewrite fn_lookup_insert_ne; [done|congruence].
Qed.

Lemma foldl_rendered_LockURL (m : MarkdownRenderer) (rs : list ProjectResult)
    (σ : Store) (p : loc) :
  PlanSuccess_LockURL (heap (foldl (rendered m) σ rs) p)
  = if decide (p ∈ omap renderedPlan rs)
    then LockURLBuilder m (PlanSuccess_LockKey (heap σ p))
    else PlanSuccess_LockURL (heap σ p).
Proof.
  revert σ. induction rs as [|r rs IH]; intros σ.
  { cbn [foldl]. case_decide as Hin; [by apply elem_of_nil in Hin|done]. }
  cbn [foldl omap list_omap]. rewrite IH, rendered_LockURL.
  destruct (samePlans_rendered m σ r p) as [_ ->].
  destruct (renderedPlan r) as [q|]; [|by repeat case_decide].
  destruct (decide (p ∈ omap renderedPlan rs)) as [Hin|Hnotin].
  { rewrite decide_True; [done|by apply list_elem_of_further]. }
  destruct (decide (Some q = Some p)) as [[= ->]|Hne].
  { rewrite decide_True; [done|apply list_elem_of_here]. }
  rewrite decide_False; [done|].
  intros [->|Hin]%elem_of_cons; [by apply Hne|by apply Hnotin].
Qed.

Lemma document_samePlans (builder : string → string) (command : string)
    (verbose : bool) (log : string) (h h' : loc → PlanSuccess)
    (res : CommandResponse) :
  samePlans h h' →
  document builder command verbose log h' res
  = document builder command verbose log h res.
Proof.
  intros Hsame. unfold document. by rewrite (fragments_samePlans _ _ h h').
Qed.

(** ** Properties of Render *)

(** The document of a response without top-level error and failure. *)
Ltac projects_document Herr Hfail :=
  rewrite Render_spec; cbn [fst]; unfold document; rewrite Herr, Hfail;
  cbn [String.eqb negb].

Section claims.
Context {iteration : MapIteration}.
Variable CommandName : Type.
Variable CommandName_String : CommandName → string.
Variable strings_Title : string → string.


(** C2. When the error of the response is populated with message [msg],
    [Render] returns the block "**Label Error**" with [msg] in a code
    fence, followed by the log block that wraps the log text exactly when
    [verbose] is set, and by a line feed.  The text contains "**Label
    Error**" and [msg]; it contains the log block when [verbose] is set and
    ends after the error block when it is not. *)
Theorem Render_top_level_error (m : MarkdownRenderer) (res : CommandResponse)
    (cmdName : CommandName) (log : string) (verbose : bool) (σ : Store)
    (msg : string) :
  CommandResponse_Error res = Some msg →
  let label := strings_Title (CommandName_String cmdName) in
  let out := (Render CommandName CommandName_String strings_Title
                m res cmdName log verbose σ).1 in
  out = "**" +:+ label +:+ lit " Error**\n```\n" +:+ msg +:+ lit "\n```\n" +:+
        (if verbose then logBlock log else "") +:+ lit "\n"
  ∧ contains ("**" +:+ label +:+ " Error**") out
  ∧ contains msg out
  ∧ (if verbose then contains (logBlock log) out
     else out = "**" +:+ label +:+ lit " Error**\n```\n" +:+ msg +:+ lit "\n```\n\n").
Proof.
  intros Herr label out. subst out. rewrite Render_spec. cbn [fst].
  unfold document. rewrite Herr. fold label. split; [done|]. split; [|split].
  - exists "", (lit "\n```\n" +:+ msg +:+ lit "\n```\n" +:+ logSection verbose log).
    cbn [String.app]. by rewrite !append_assoc.
  - exists ("**" +:+ label +:+ lit " Error**\n```\n"),
           (lit "\n```\n" +:+ logSection verbose log).
    by rewrite !append_assoc.
  - destruct verbose; [|done]. do 5 apply contains_append_r.
    apply contains_prefix.
Qed.

(** C3. When the response has no error and a failure [msg] that is not
    empty, [Render] returns the line "**Label Failed**: msg", followed by
    the log block exactly when [verbose] is set and by a line feed. *)
Theorem Render_top_level_failure (m : MarkdownRenderer) (res : CommandResponse)
    (cmdName : CommandName) (log : string) (verbose : bool) (σ : Store)
    (msg : string) :
  CommandResponse_Error res = None →
  CommandResponse_Failure res = msg →
  msg ≠ "" →
  let label := strings_Title (CommandName_String cmdName) in
  (Render CommandName CommandName_String strings_Title
     m res cmdName log verbose σ).1
  = "**" +:+ label +:+ " Failed**: " +:+ msg +:+ lit "\n" +:+
    (if verbose then logBlock log else "") +:+ lit "\n".
Proof.
  intros Herr Hfail Hmsg label. rewrite Render_spec. cbn [fst].
  unfold document. rewrite Herr, Hfail.
  by destruct (String.eqb_spec msg "").
Qed.

(** C4. When the response has no error, no failure and exactly one project
    result, [Render] returns the fragment of that result, a line feed and
    the log section: no banner and no path header. *)
Theorem Render_single_project (m : MarkdownRenderer) (res : CommandResponse)
    (cmdName : CommandName) (log : string) (verbose : bool) (σ : Store)
    (r : ProjectResult) :
  CommandResponse_Error res = None →
  CommandResponse_Failure res = "" →
  CommandResponse_ProjectResults res = [r] →
  let label := strings_Title (CommandName_String cmdName) in
  (Render CommandName CommandName_String strings_Title
     m res cmdName log verbose σ).1
  = fragment (LockURLBuilder m) label (heap σ) r +:+ lit "\n" +:+
    (if verbose then logBlock log else "") +:+ lit "\n".
Proof.
  intros Herr Hfail Hrs label. projects_document Herr Hfail. rewrite Hrs.
  apply projectsDocument_single.
Qed.

(** C5. When the response has no error, no failure and N > 1 project
    results with distinct paths, [Render] returns the banner "Ran Label in
    N directories:", one bullet per path, an empty line, and one section
    per result: the header "## path/", the fragment of the result and a
    horizontal rule; then the log section.  Bullets and sections follow the
    results in increasing order of path, a permutation of the N results. *)
Theorem Render_multi_project (m : MarkdownRenderer) (res : CommandResponse)
    (cmdName : CommandName) (log : string) (verbose : bool) (σ : Store) :
  CommandResponse_Error res = None →
  CommandResponse_Failure res = "" →
  NoDup (ProjectResult_Path <$> CommandResponse_ProjectResults res) →
  1 < length (CommandResponse_ProjectResults res) →
  let rs := CommandResponse_ProjectResults res in
  let label := strings_Title (CommandName_String cmdName) in
  let sorted := sortByPath rs in
  sorted ≡ₚ rs
  ∧ length sorted = length rs
  ∧ (Render CommandName CommandName_String strings_Title
       m res cmdName log verbose σ).1
    = "Ran " +:+ label +:+ " in " +:+ pretty (Z.of_nat (length rs)) +:+
      lit " directories:\n" +:+
      concat ((λ r, " * `" +:+ ProjectResult_Path r +:+ lit "`\n") <$> sorted) +:+
      lit "\n" +:+
      concat ((λ r, "## " +:+ ProjectResult_Path r +:+ lit "/\n" +:+
                    fragment (LockURLBuilder m) label (heap σ) r +:+
                    lit "\n---\n") <$> sorted) +:+
      (if verbose then logBlock log else "") +:+ lit "\n".
Proof.
  intros Herr Hfail Hnodup Hlen rs label sorted. subst sorted.
  split; [apply sortByPath_Permutation|].
  split; [by rewrite (sortByPath_Permutation rs)|].
  projects_document Herr Hfail. subst rs.
  apply projectsDocument_multi; [done|lia].
Qed.

(** C6. A project result that has no error and no failure and points to a
    plan with lock key k makes the loop call the builder once, with k, and
    store as the fragment of its path the diff followed by the discard link
    whose target is what the builder returned.  Every other result leaves
    the calls as they are.  Over a whole [Render], the builder is called
    with the lock keys of the rendered plans, in order and once each. *)
Theorem LockURLBuilder_once_per_plan (m : MarkdownRenderer) :
  (∀ common r results σ p,
     ProjectResult_Error r = None →
     ProjectResult_Failure r = "" →
     ProjectResult_PlanSuccess r = Some p →
     let key := PlanSuccess_LockKey (heap σ p) in
     let after := renderProjectResult m common r results σ in
     calls after.2 = calls σ ++ [key]
     ∧ after.1 !! ProjectResult_Path r
       = Some (lit "```diff\n" +:+ PlanSuccess_TerraformOutput (heap σ p) +:+
               lit "\n```\n\n* To **discard** this plan click [here](" +:+
               LockURLBuilder m key +:+ ")."))
  ∧ (∀ common r results σ,
       ProjectResult_Error r ≠ None ∨ ProjectResult_Failure r ≠ ""
       ∨ ProjectResult_PlanSuccess r = None →
       calls (renderProjectResult m common r results σ).2 = calls σ)
  ∧ (∀ res cmdName log verbose σ,
       calls (Render CommandName CommandName_String strings_Title
                m res cmdName log verbose σ).2
       = calls σ ++ lockKeys (heap σ) (renderedResults res)).
Proof.
  split; [|split].
  - intros common r results σ p Herr Hfail Hplan key after. subst after.
    rewrite renderProjectResult_spec. cbn [fst snd].
    rewrite rendered_calls, lookup_insert_eq.
    unfold lockKeys. cbn [omap list_omap]. unfold renderedPlan, fragment.
    rewrite Herr, Hfail, Hplan. done.
  - intros common r results σ Hother.
    rewrite renderProjectResult_spec. cbn [snd]. rewrite rendered_calls.
    unfold lockKeys, renderedPlan. cbn [omap list_omap].
    destruct (ProjectResult_Error r); [by rewrite app_nil_r|].
    destruct (String.eqb_spec (ProjectResult_Failure r) ""); [|by rewrite app_nil_r].
    destruct Hother as [?|[?|Hnil]]; [done..|]. by rewrite Hnil, app_nil_r.
  - intros. rewrite Render_spec. apply foldl_rendered_calls.
Qed.

(** C7. When the response has no error and no failure and its results
    have distinct paths, a result in which no variant is populated has the
    fragment "Found no template. This is a bug!", and the document contains
    it: as the whole fragment part when it is the only result, under the
    header of its path when there are several. *)
Theorem Render_no_template (m : MarkdownRenderer) (res : CommandResponse)
    (cmdName : CommandName) (log : string) (verbose : bool) (σ : Store)
    (r : ProjectResult) :
  CommandResponse_Error res = None →
  CommandResponse_Failure res = "" →
  NoDup (ProjectResult_Path <$> CommandResponse_ProjectResults res) →
  r ∈ CommandResponse_ProjectResults res →
  ProjectResult_Error r = None →
  ProjectResult_Failure r = "" →
  ProjectResult_PlanSuccess r = None →
  ProjectResult_ApplySuccess r = "" →
  let out := (Render CommandName CommandName_String strings_Title
                m res cmdName log verbose σ).1 in
  contains "Found no template. This is a bug!" out
  ∧ (CommandResponse_ProjectResults res = [r] →
     out = "Found no template. This is a bug!" +:+ lit "\n" +:+
           (if verbose then logBlock log else "") +:+ lit "\n")
  ∧ (1 < length (CommandResponse_ProjectResults res) →
     contains ("## " +:+ ProjectResult_Path r +:+ lit "/\n" +:+
               "Found no template. This is a bug!" +:+ lit "\n---\n") out).
Proof.
  intros Herr Hfail Hnodup Hin Hrerr Hrfail Hrplan Hrapply out. subst out.
  projects_document Herr Hfail.
  set (command := strings_Title (CommandName_String cmdName)).
  assert (fragment (LockURLBuilder m) command (heap σ) r
          = "Found no template. This is a bug!") as Hfragment.
  { unfold fragment. by rewrite Hrerr, Hrfail, Hrplan, Hrapply. }
  destruct (fragment_in_projectsDocument (LockURLBuilder m) command verbose log
              (heap σ) _ r Hnodup Hin) as [Hfrag Hsection].
  rewrite Hfragment in Hfrag, Hsection. split; [done|]. split.
  - intros ->. by rewrite projectsDocument_single, Hfragment.
  - intros Hlen. apply Hsection. lia.
Qed.

(** C8. Two invocations of [Render] on the same input return the same
    string: the second invocation, run in the store that the first one
    left and with any enumeration of the keys of the map, returns what the
    first one returned; so do two invocations from the same store. *)
Theorem Render_deterministic (first second : MapIteration)
    (m : MarkdownRenderer) (res : CommandResponse) (cmdName : CommandName)
    (log : string) (verbose : bool) (σ : Store) :
  let once := Render (iteration := first) CommandName CommandName_String
                strings_Title m res cmdName log verbose σ in
  (Render (iteration := second) CommandName CommandName_String strings_Title
     m res cmdName log verbose once.2).1 = once.1
  ∧ (Render (iteration := second) CommandName CommandName_String strings_Title
       m res cmdName log verbose σ).1 = once.1.
Proof.
  intros once. subst once. rewrite !Render_spec. cbn [fst snd]. split; [|done].
  apply document_samePlans, samePlans_foldl_rendered.
Qed.

(** C9, as amended.  [Render] leaves the diff text and the lock key of
    every plan as they were.  It overwrites the discard URL of each plan
    that a rendered result points to with what the builder returns for the
    lock key of that plan, and leaves the discard URL of every other plan
    as it was. *)
Theorem Render_store (m : MarkdownRenderer) (res : CommandResponse)
    (cmdName : CommandName) (log : string) (verbose : bool) (σ : Store)
    (p : loc) :
  let σ' := (Render CommandName CommandName_String strings_Title
               m res cmdName log verbose σ).2 in
  PlanSuccess_TerraformOutput (heap σ' p) = PlanSuccess_TerraformOutput (heap σ p)
  ∧ PlanSuccess_LockKey (heap σ' p) = PlanSuccess_LockKey (heap σ p)
  ∧ PlanSuccess_LockURL (heap σ' p)
    = if decide (p ∈ omap renderedPlan (renderedResults res))
      then LockURLBuilder m (PlanSuccess_LockKey (heap σ p))
      else PlanSuccess_LockURL (heap σ p).
Proof.
  intros σ'. subst σ'. rewrite Render_spec. cbn [snd].
  destruct (samePlans_foldl_rendered m (renderedResults res) σ p) as [-> ->].
  by rewrite foldl_rendered_LockURL.
Qed.

(** C10. When the response has no error, no failure and no project result,
    [Render] uses the template for several projects: the banner with the
    count 0, no bullet, an empty line, no section, and the log section. *)
Theorem Render_no_project (m : MarkdownRenderer) (res : CommandResponse)
    (cmdName : CommandName) (log : string) (verbose : bool) (σ : Store) :
  CommandResponse_Error res = None →
  CommandResponse_Failure res = "" →
  CommandResponse_ProjectResults res = [] →
  let label := strings_Title (CommandName_String cmdName) in
  (Render CommandName CommandName_String strings_Title
     m res cmdName log verbose σ).1
  = "Ran " +:+ label +:+ lit " in 0 directories:\n" +:+ lit "\n" +:+
    (if verbose then logBlock log else "") +:+ lit "\n".
Proof.
  intros Herr Hfail Hrs label. projects_document Herr Hfail. rewrite Hrs.
  rewrite projectsDocument_multi; [done|apply NoDup_nil_2|done].
Qed.

End claims.

(** ** Instances on the sample inputs *)


Lemma Render_top_level_error_witness :
  CommandResponse_Error (Sample.topLevelError "boom") = Some "boom"
  ∧ (Sample.render Sample.forwards (Sample.topLevelError "boom") Sample.Plan
       "LOG" true Sample.store).1
    = lit "**Plan Error**\n```\nboom\n```\n\n<details><summary>Log</summary>\n  <p>\n\n```\nLOG```\n</p></details>\n".
Proof.
  split; [reflexivity|].
  apply (Render_top_level_error (iteration := Sample.forwards)
           Sample.CommandName Sample.CommandName_String Sample.strings_Title
           Sample.renderer (Sample.topLevelError "boom") Sample.Plan
           "LOG" true Sample.store "boom").
  reflexivity.
Defined.

Lemma Render_top_level_failure_witness :
  CommandResponse_Error (Sample.topLevelFailure "no plan") = None
  ∧ "no plan" ≠ ""
  ∧ (Sample.render Sample.forwards (Sample.topLevelFailure "no plan") Sample.Apply
       "LOG" false Sample.store).1
    = lit "**Apply Failed**: no plan\n\n".
Proof.
  split; [reflexivity|]. split; [discriminate|].
  apply (Render_top_level_failure (iteration := Sample.forwards)
           Sample.CommandName Sample.CommandName_String Sample.strings_Title
           Sample.renderer (Sample.topLevelFailure "no plan") Sample.Apply
           "LOG" false Sample.store "no plan"); [reflexivity..|discriminate].
Defined.

(** The first scenario of the specification: one applied project. *)
Lemma Render_single_project_witness :
  CommandResponse_ProjectResults
    (Sample.projects [Sample.applyResult "proj1" "Apply complete!"])
  = [Sample.applyResult "proj1" "Apply complete!"]
  ∧ (Sample.render Sample.forwards
       (Sample.projects [Sample.applyResult "proj1" "Apply complete!"])
       Sample.Apply "LOG" false Sample.store).1
    = lit "```diff\nApply complete!\n```\n\n".
Proof.
  split; [reflexivity|].
  apply (Render_single_project (iteration := Sample.forwards)
           Sample.CommandName Sample.CommandName_String Sample.strings_Title
           Sample.renderer
           (Sample.projects [Sample.applyResult "proj1" "Apply complete!"])
           Sample.Apply "LOG" false Sample.store
           (Sample.applyResult "proj1" "Apply complete!")); reflexivity.
Defined.

(** The second scenario of the specification, the projects given in the
    order b, a and the keys of the map enumerated backwards. *)
Lemma Render_multi_project_witness :
  NoDup (ProjectResult_Path <$> [Sample.planResult "b" 2; Sample.planResult "a" 1])
  ∧ 1 < length [Sample.planResult "b" 2; Sample.planResult "a" 1]
  ∧ (Sample.render Sample.backwards
       (Sample.projects [Sample.planResult "b" 2; Sample.planResult "a" 1])
       Sample.Plan "LOG" false Sample.store).1
    = lit "Ran Plan in 2 directories:\n * `a`\n * `b`\n\n" +:+
      lit "## a/\n```diff\n+ resource\n```\n\n* To **discard** this plan click [here](http://x/L1).\n---\n" +:+
      lit "## b/\n```diff\n- resource\n```\n\n* To **discard** this plan click [here](http://x/L2).\n---\n" +:+
      lit "\n".
Proof.
  assert (NoDup (ProjectResult_Path <$>
                   [Sample.planResult "b" 2; Sample.planResult "a" 1])) as Hnodup
    by (apply (bool_decide_unpack _); vm_compute; exact I).
  split; [exact Hnodup|]. split; [cbn; lia|].
  apply (Render_multi_project (iteration := Sample.backwards)
           Sample.CommandName Sample.CommandName_String Sample.strings_Title
           Sample.renderer
           (Sample.projects [Sample.planResult "b" 2; Sample.planResult "a" 1])
           Sample.Plan "LOG" false Sample.store);
    [reflexivity|reflexivity|exact Hnodup|cbn; lia].
Defined.

Lemma LockURLBuilder_once_per_plan_witness :
  calls (Sample.render Sample.forwards
           (Sample.projects [Sample.planResult "b" 2; Sample.applyResult "c" "done";
                             Sample.planResult "a" 1])
           Sample.Plan "LOG" false Sample.store).2
  = ["L2"; "L1"].
Proof.
  apply (proj2 (proj2 (LockURLBuilder_once_per_plan (iteration := Sample.forwards)
                         Sample.CommandName Sample.CommandName_String
                         Sample.strings_Title Sample.renderer))).
Defined.

Lemma Render_no_template_witness :
  Sample.emptyResult "b" ∈ [Sample.applyResult "a" "done"; Sample.emptyResult "b"]
  ∧ contains (lit "## b/\nFound no template. This is a bug!\n---\n")
      (Sample.render Sample.forwards
         (Sample.projects [Sample.applyResult "a" "done"; Sample.emptyResult "b"])
         Sample.Apply "LOG" false Sample.store).1.
Proof.
  assert (NoDup (ProjectResult_Path <$>
                   [Sample.applyResult "a" "done"; Sample.emptyResult "b"])) as Hnodup
    by (apply (bool_decide_unpack _); vm_compute; exact I).
  assert (Sample.emptyResult "b"
          ∈ [Sample.applyResult "a" "done"; Sample.emptyResult "b"]) as Hin
    by (apply list_elem_of_further, list_elem_of_here).
  split; [exact Hin|].
  apply (Render_no_template (iteration := Sample.forwards)
           Sample.CommandName Sample.CommandName_String Sample.strings_Title
           Sample.renderer
           (Sample.projects [Sample.applyResult "a" "done"; Sample.emptyResult "b"])
           Sample.Apply "LOG" false Sample.store (Sample.emptyResult "b"));
    [reflexivity|reflexivity|exact Hnodup|exact Hin|reflexivity..|cbn; lia].
Defined.

Lemma Render_no_project_witness :
  CommandResponse_ProjectResults (Sample.projects []) = []
  ∧ (Sample.render Sample.forwards (Sample.projects []) Sample.Plan
       "LOG" false Sample.store).1
    = lit "Ran Plan in 0 directories:\n\n\n".
Proof.
  split; [reflexivity|].
  apply (Render_no_project (iteration := Sample.forwards)
           Sample.CommandName Sample.CommandName_String Sample.strings_Title
           Sample.renderer (Sample.projects []) Sample.Plan "LOG" false
           Sample.store); reflexivity.
Defined.

(** C9 as stated fails: rendering a plan overwrites the discard URL of the
    plan that the result points to. *)
Lemma Render_overwrites_LockURL :
  heap (Sample.render Sample.forwards (Sample.projects [Sample.planResult "a" 1])
          Sample.Plan "" false Sample.store).2 1
  ≠ heap Sample.store 1.
Proof. vm_compute. discriminate. Qed.

(** Two plans rendered twice, the keys enumerated in opposite orders. *)
Example Render_twice :
  let once := Sample.render Sample.forwards
                (Sample.projects [Sample.planResult "b" 2; Sample.planResult "a" 1])
                Sample.Plan "LOG" true Sample.store in
  (Sample.render Sample.backwards
     (Sample.projects [Sample.planResult "b" 2; Sample.planResult "a" 1])
     Sample.Plan "LOG" true once.2).1
  = once.1.
Proof. vm_compute. reflexivity. Qed.

(** Two results with the same path: the later one replaces the earlier one
    and the template for one project is used. *)
Example Render_same_path :
  (Sample.render Sample.forwards
     (Sample.projects [Sample.emptyResult "a"; Sample.applyResult "a" "done"])
     Sample.Apply "LOG" false Sample.store).1
  = lit "```diff\ndone\n```\n\n".
Proof. vm_compute. reflexivity. Qed.

(** ** Further properties of the renderer *)

Section paths.
Variable builder : string → string.
Variable command : string.
Variable h : loc → PlanSuccess.

(** After the loop a path holds the fragment of the last result that has
    it. *)
Lemma fragments_lookup (rs : list ProjectResult) (results : gmap string string)
    (path : string) :
  fragments builder command h rs results !! path
  = match lastWithPath path rs with
    | Some r => Some (fragment builder command h r)
    | None => results !! path
    end.
Proof.
  revert results. induction rs as [|r rs IH]; intros results; [done|].
  rewrite fragments_cons, IH. cbn [lastWithPath].
  destruct (lastWithPath path rs); [done|].
  destruct (String.eqb_spec (ProjectResult_Path r) path) as [->|Hne].
  - apply lookup_insert_eq.
  - by apply lookup_insert_ne.
Qed.

Lemma lastWithPath_None (path : string) (rs : list ProjectResult) :
  lastWithPath path rs = None ↔ path ∉ ProjectResult_Path <$> rs.
Proof.
  induction rs as [|r rs IH]; cbn [lastWithPath].
  { split; [intros _; apply not_elem_of_nil|done]. }
  rewrite fmap_cons, not_elem_of_cons, <- IH.
  destruct (lastWithPath path rs); [split; [done|by intros [_ ?]]|].
  destruct (String.eqb_spec (ProjectResult_Path r) path) as [Heq|Hne].
  - split; [done|]. intros [Hne _]. by destruct Hne.
  - done.
Qed.

Lemma lastWithPath_keepLast (path : string) (rs : list ProjectResult) :
  lastWithPath path (keepLast rs) = lastWithPath path rs.
Proof.
  induction rs as [|r rs IH]; [done|]. cbn [keepLast lastWithPath].
  case_decide as Hin; cbn [lastWithPath]; rewrite IH; [|done].
  destruct (lastWithPath path rs) eqn:Hlast; [done|].
  destruct (String.eqb_spec (ProjectResult_Path r) path) as [<-|]; [|done].
  by apply lastWithPath_None in Hlast.
Qed.

Lemma keepLast_paths (path : string) (rs : list ProjectResult) :
  path ∈ ProjectResult_Path <$> keepLast rs ↔ path ∈ ProjectResult_Path <$> rs.
Proof.
  destruct (decide (path ∈ ProjectResult_Path <$> keepLast rs)) as [Hin|Hnotin],
           (decide (path ∈ ProjectResult_Path <$> rs)) as [Hin'|Hnotin'];
    try done; exfalso.
  - apply lastWithPath_None in Hnotin'. rewrite <- lastWithPath_keepLast in Hnotin'.
    by apply lastWithPath_None in Hnotin'.
  - apply lastWithPath_None in Hnotin. rewrite lastWithPath_keepLast in Hnotin.
    by apply lastWithPath_None in Hnotin.
Qed.

Lemma keepLast_NoDup (rs : list ProjectResult) :
  NoDup (ProjectResult_Path <$> keepLast rs).
Proof.
  induction rs as [|r rs IH]; cbn [keepLast]; [apply NoDup_nil_2|].
  case_decide as Hin; [done|]. rewrite fmap_cons.
  apply NoDup_cons_2; [|done]. by rewrite keepLast_paths.
Qed.

Lemma fragments_keepLast (rs : list ProjectResult) :
  fragments builder command h (keepLast rs) ∅ = fragments builder command h rs ∅.
Proof.
  apply map_eq. intros path. by rewrite !fragments_lookup, lastWithPath_keepLast.
Qed.

Lemma fragments_Permutation (rs rs' : list ProjectResult) :
  NoDup (ProjectResult_Path <$> rs) → rs ≡ₚ rs' →
  fragments builder command h rs' ∅ = fragments builder command h rs ∅.
Proof.
  intros Hnodup Hperm. apply map_eq. intros path.
  assert (NoDup (ProjectResult_Path <$> rs')) as Hnodup' by by rewrite <- Hperm.
  destruct (decide (path ∈ ProjectResult_Path <$> rs)) as [Hin|Hnotin].
  - apply list_elem_of_fmap in Hin as (r & -> & Hr).
    rewrite !fragments_lookup_in; [done..|]. by rewrite <- Hperm.
  - rewrite !fragments_lookup_notin; [done..|]. by rewrite <- Hperm.
Qed.

End paths.

Lemma projectsDocument_body (command : string) (verbose : bool) (log : string)
    (results : gmap string string) :
  projectsDocument command verbose log results
  = projectsBody command results +:+ logSection verbose log.
Proof.
  unfold projectsDocument, projectsBody.
  destruct (size results =? 1); by rewrite !append_assoc.
Qed.

Lemma document_body (builder : string → string) (command : string)
    (verbose : bool) (log : string) (h : loc → PlanSuccess)
    (res : CommandResponse) :
  document builder command verbose log h res
  = documentBody builder command h res +:+ logSection verbose log.
Proof.
  unfold document, documentBody.
  destruct (CommandResponse_Error res); [by rewrite !append_assoc|].
  destruct (negb _); [by rewrite !append_assoc|]. apply projectsDocument_body.
Qed.

Lemma PlanSuccess_eq (plan plan' : PlanSuccess) :
  PlanSuccess_TerraformOutput plan = PlanSuccess_TerraformOutput plan' →
  PlanSuccess_LockURL plan = PlanSuccess_LockURL plan' →
  PlanSuccess_LockKey plan = PlanSuccess_LockKey plan' →
  plan = plan'.
Proof. destruct plan, plan'. cbn. by intros -> -> ->. Qed.

Section extras.
Context {iteration : MapIteration}.
Variable CommandName : Type.
Variable CommandName_String : CommandName → string.
Variable strings_Title : string → string.

(** X1. With a top-level error or failure [Render] returns before the
    project results are looked at: the builder is not called, no plan is
    written to, and the output is the same whatever the project results
    are. *)
Theorem Render_top_level_skips_projects (m : MarkdownRenderer)
    (res : CommandResponse) (cmdName : CommandName) (log : string)
    (verbose : bool) (σ : Store) (rs : list ProjectResult) :
  CommandResponse_Error res ≠ None ∨ CommandResponse_Failure res ≠ "" →
  (Render CommandName CommandName_String strings_Title
     m res cmdName log verbose σ).2 = σ
  ∧ (Render CommandName CommandName_String strings_Title
       m (withProjectResults res rs) cmdName log verbose σ).1
    = (Render CommandName CommandName_String strings_Title
         m res cmdName log verbose σ).1.
Proof.
  intros Htop. rewrite !Render_spec. cbn [fst snd].
  unfold renderedResults, document, withProjectResults.
  cbn [CommandResponse_Error CommandResponse_Failure].
  destruct (CommandResponse_Error res); [done|].
  destruct (String.eqb_spec (CommandResponse_Failure res) ""); [|done].
  by destruct Htop.
Qed.


(** X3. The variant of a project result is the first populated field in
    the order error, failure, plan, apply output.  A result with an error
    is rendered as that error and a result with a failure and no error as
    that failure, whatever its other fields hold, and neither touches the
    store; a result with a plan and neither error nor failure is rendered
    as that plan, whatever its apply output holds. *)
Theorem renderProjectResult_priority (m : MarkdownRenderer) (common : CommonData)
    (r : ProjectResult) (results : gmap string string) (σ : Store) :
  (∀ err, ProjectResult_Error r = Some err →
     renderProjectResult m common r results σ
     = (<[ProjectResult_Path r :=
           lit "**" +:+ CommonData_Command common +:+ lit " Error**\n```\n" +:+
           err +:+ lit "\n```\n"]> results, σ))
  ∧ (ProjectResult_Error r = None → ProjectResult_Failure r ≠ "" →
     renderProjectResult m common r results σ
     = (<[ProjectResult_Path r :=
           lit "**" +:+ CommonData_Command common +:+ " Failed**: " +:+
           ProjectResult_Failure r +:+ lit "\n"]> results, σ))
  ∧ (∀ p, ProjectResult_Error r = None → ProjectResult_Failure r = "" →
     ProjectResult_PlanSuccess r = Some p →
     (renderProjectResult m common r results σ).1
     = <[ProjectResult_Path r :=
          lit "```diff\n" +:+ PlanSuccess_TerraformOutput (heap σ p) +:+
          lit "\n```\n\n* To **discard** this plan click [here](" +:+
          LockURLBuilder m (PlanSuccess_LockKey (heap σ p)) +:+ ")."]> results).
Proof.
  rewrite renderProjectResult_spec. unfold fragment, rendered, renderedPlan.
  split; [|split].
  - by intros err ->.
  - intros -> Hfail. by destruct (String.eqb_spec (ProjectResult_Failure r) "").
  - by intros p -> -> ->.
Qed.

(** X4. Results that share a path: only the last result with a path is in
    the document.  The output is the output for the results that no later
    result with the same path follows; those have distinct paths, and their
    paths are the paths of all the results. *)
Theorem Render_duplicate_paths (m : MarkdownRenderer) (res : CommandResponse)
    (cmdName : CommandName) (log : string) (verbose : bool) (σ : Store) :
  let rs := CommandResponse_ProjectResults res in
  (Render CommandName CommandName_String strings_Title
     m res cmdName log verbose σ).1
  = (Render CommandName CommandName_String strings_Title
       m (withProjectResults res (keepLast rs)) cmdName log verbose σ).1
  ∧ NoDup (ProjectResult_Path <$> keepLast rs)
  ∧ (∀ path, path ∈ ProjectResult_Path <$> keepLast rs
             ↔ path ∈ ProjectResult_Path <$> rs).
Proof.
  intros rs. split; [|split; [apply keepLast_NoDup|intros; apply keepLast_paths]].
  rewrite !Render_spec. cbn [fst]. unfold document, withProjectResults.
  cbn [CommandResponse_Error CommandResponse_Failure CommandResponse_ProjectResults].
  by rewrite fragments_keepLast.
Qed.

(** X5. When the paths are distinct the output does not depend on the
    order in which the project results are given. *)
Theorem Render_permutation (m : MarkdownRenderer) (res : CommandResponse)
    (cmdName : CommandName) (log : string) (verbose : bool) (σ : Store)
    (rs : list ProjectResult) :
  NoDup (ProjectResult_Path <$> CommandResponse_ProjectResults res) →
  CommandResponse_ProjectResults res ≡ₚ rs →
  (Render CommandName CommandName_String strings_Title
     m (withProjectResults res rs) cmdName log verbose σ).1
  = (Render CommandName CommandName_String strings_Title
       m res cmdName log verbose σ).1.
Proof.
  intros Hnodup Hperm. rewrite !Render_spec. cbn [fst].
  unfold document, withProjectResults.
  cbn [CommandResponse_Error CommandResponse_Failure CommandResponse_ProjectResults].
  by rewrite (fragments_Permutation _ _ _ _ rs Hnodup Hperm).
Qed.

(** X6. The output does not depend on the discard URLs that the plans hold
    before the call: two stores whose plans have the same diff text and
    lock key give the same output. *)
Theorem Render_ignores_LockURL (m : MarkdownRenderer) (res : CommandResponse)
    (cmdName : CommandName) (log : string) (verbose : bool) (σ σ' : Store) :
  samePlans (heap σ) (heap σ') →
  (Render CommandName CommandName_String strings_Title
     m res cmdName log verbose σ').1
  = (Render CommandName CommandName_String strings_Title
       m res cmdName log verbose σ).1.
Proof.
  intros Hsame. rewrite !Render_spec. cbn [fst]. by apply document_samePlans.
Qed.

(** X7. Rendering the same response again, with any command name, log and
    verbosity, leaves every plan as the first rendering left it. *)
Theorem Render_heap_idempotent (m : MarkdownRenderer) (res : CommandResponse)
    (cmdName cmdName' : CommandName) (log log' : string)
    (verbose verbose' : bool) (σ : Store) (p : loc) :
  let σ1 := (Render CommandName CommandName_String strings_Title
               m res cmdName log verbose σ).2 in
  let σ2 := (Render CommandName CommandName_String strings_Title
               m res cmdName' log' verbose' σ1).2 in
  heap σ2 p = heap σ1 p.
Proof.
  intros σ1 σ2. subst σ1 σ2. rewrite !Render_spec. cbn [snd].
  set (rs := renderedResults res). set (σ1 := foldl (rendered m) σ rs).
  destruct (samePlans_foldl_rendered m rs σ1 p) as [Houtput Hkey].
  apply PlanSuccess_eq; [done| |done].
  rewrite foldl_rendered_LockURL. case_decide as Hin; [|done].
  subst σ1. rewrite foldl_rendered_LockURL, decide_True by done.
  by destruct (samePlans_foldl_rendered m rs σ p) as [_ ->].
Qed.

(** X8. The log and the verbosity only decide the end of the output: the
    output is a body that depends on neither, then the log block when
    [verbose] is set, then a line feed.  Without [verbose] the log text has
    no influence on the output. *)
Theorem Render_log_suffix (m : MarkdownRenderer) (res : CommandResponse)
    (cmdName : CommandName) (σ : Store) :
  let body := documentBody (LockURLBuilder m)
                (strings_Title (CommandName_String cmdName)) (heap σ) res in
  (∀ log verbose,
     (Render CommandName CommandName_String strings_Title
        m res cmdName log verbose σ).1
     = body +:+ (if verbose then logBlock log else "") +:+ lit "\n")
  ∧ (∀ log log',
       (Render CommandName CommandName_String strings_Title
          m res cmdName log false σ).1
       = (Render CommandName CommandName_String strings_Title
            m res cmdName log' false σ).1).
Proof.
  intros body. subst body. split.
  - intros log verbose. rewrite Render_spec. cbn [fst]. apply document_body.
  - intros log log'. rewrite !Render_spec. cbn [fst]. by rewrite !document_body.
Qed.

(** X9. When the response has no error and no failure and the paths are
    distinct, no project is left out: the output contains the fragment of
    every result, and with several results also the bullet of its path and
    its section. *)
Theorem Render_contains_every_fragment (m : MarkdownRenderer)
    (res : CommandResponse) (cmdName : CommandName) (log : string)
    (verbose : bool) (σ : Store) (r : ProjectResult) :
  CommandResponse_Error res = None →
  CommandResponse_Failure res = "" →
  NoDup (ProjectResult_Path <$> CommandResponse_ProjectResults res) →
  r ∈ CommandResponse_ProjectResults res →
  let label := strings_Title (CommandName_String cmdName) in
  let out := (Render CommandName CommandName_String strings_Title
                m res cmdName log verbose σ).1 in
  contains (fragment (LockURLBuilder m) label (heap σ) r) out
  ∧ (1 < length (CommandResponse_ProjectResults res) →
     contains (" * `" +:+ ProjectResult_Path r +:+ lit "`\n") out
     ∧ contains ("## " +:+ ProjectResult_Path r +:+ lit "/\n" +:+
                 fragment (LockURLBuilder m) label (heap σ) r +:+
                 lit "\n---\n") out).
Proof.
  intros Herr Hfail Hnodup Hin label out. subst out.
  projects_document Herr Hfail.
  destruct (fragment_in_projectsDocument (LockURLBuilder m) label verbose log
              (heap σ) _ r Hnodup Hin) as [Hfrag Hsection].
  split; [done|]. intros Hlen. split; [|apply Hsection; lia].
  rewrite projectsDocument_multi by (done || lia).
  do 5 apply contains_append_r. apply contains_append_l.
  apply (contains_concat (λ r, bullet (ProjectResult_Path r))).
  by rewrite sortByPath_Permutation.
Qed.

(** X10. With several results of distinct paths the bullets and the
    sections come in increasing order of path (Go's order on strings),
    whatever the order of the results and of the keys of the map: the
    output is the document of a rearrangement of the results in which every
    path is at most the paths after it. *)
Theorem Render_sections_sorted (m : MarkdownRenderer) (res : CommandResponse)
    (cmdName : CommandName) (log : string) (verbose : bool) (σ : Store) :
  CommandResponse_Error res = None →
  CommandResponse_Failure res = "" →
  NoDup (ProjectResult_Path <$> CommandResponse_ProjectResults res) →
  1 < length (CommandResponse_ProjectResults res) →
  let label := strings_Title (CommandName_String cmdName) in
  ∃ sorted,
    sorted ≡ₚ CommandResponse_ProjectResults res
    ∧ StronglySorted String.le (ProjectResult_Path <$> sorted)
    ∧ (Render CommandName CommandName_String strings_Title
         m res cmdName log verbose σ).1
      = "Ran " +:+ label +:+ " in " +:+
        pretty (Z.of_nat (length (CommandResponse_ProjectResults res))) +:+
        lit " directories:\n" +:+
        concat ((λ r, " * `" +:+ ProjectResult_Path r +:+ lit "`\n") <$> sorted) +:+
        lit "\n" +:+
        concat ((λ r, "## " +:+ ProjectResult_Path r +:+ lit "/\n" +:+
                      fragment (LockURLBuilder m) label (heap σ) r +:+
                      lit "\n---\n") <$> sorted) +:+
        (if verbose then logBlock log else "") +:+ lit "\n".
Proof.
  intros Herr Hfail Hnodup Hlen label.
  exists (sortByPath (CommandResponse_ProjectResults res)).
  split; [apply sortByPath_Permutation|]. split.
  - apply Sorted_StronglySorted; [apply _|].
    apply (Sorted_fmap _ byPath); [done|]. apply Sorted_merge_sort, _.
  - projects_document Herr Hfail. apply projectsDocument_multi; [done|lia].
Qed.

(** X11. The template is chosen by the number of distinct paths, not by
    the number of results: when every result has the path of the last one,
    the output is the single-project document of the last result, without
    banner and headers. *)
Theorem Render_one_path (m : MarkdownRenderer) (res : CommandResponse)
    (cmdName : CommandName) (log : string) (verbose : bool) (σ : Store)
    (rs : list ProjectResult) (r : ProjectResult) :
  CommandResponse_Error res = None →
  CommandResponse_Failure res = "" →
  CommandResponse_ProjectResults res = rs ++ [r] →
  Forall (λ r', ProjectResult_Path r' = ProjectResult_Path r) rs →
  let label := strings_Title (CommandName_String cmdName) in
  (Render CommandName CommandName_String strings_Title
     m res cmdName log verbose σ).1
  = fragment (LockURLBuilder m) label (heap σ) r +:+ lit "\n" +:+
    (if verbose then logBlock log else "") +:+ lit "\n".
Proof.
  intros Herr Hfail Hrs Hsame label. projects_document Herr Hfail. rewrite Hrs.
  assert (keepLast (rs ++ [r]) = [r]) as Hlast.
  { clear Hrs. induction Hsame as [|r' rs Hpath _ IH].
    - cbn [app keepLast fmap list_fmap].
      rewrite decide_False; [done|apply not_elem_of_nil].
    - cbn [app keepLast]. rewrite decide_True; [done|].
      rewrite Hpath, fmap_app. apply elem_of_app. right. apply list_elem_of_here. }
  rewrite <- fragments_keepLast, Hlast. apply projectsDocument_single.
Qed.

End extras.

(** ** The further properties on the sample inputs *)

Lemma Render_top_level_skips_projects_witness :
  CommandResponse_Error
    (withProjectResults (Sample.topLevelError "boom") [Sample.planResult "a" 1])
  ≠ None
  ∧ (Sample.render Sample.forwards
       (withProjectResults (Sample.topLevelError "boom") [Sample.planResult "a" 1])
       Sample.Plan "LOG" false Sample.store).2
    = Sample.store.
Proof.
  assert (CommandResponse_Error
            (withProjectResults (Sample.topLevelError "boom")
               [Sample.planResult "a" 1]) ≠ None) as Herr by discriminate.
  split; [exact Herr|].
  apply (proj1 (Render_top_level_skips_projects (iteration := Sample.forwards)
                  Sample.CommandName Sample.CommandName_String Sample.strings_Title
                  Sample.renderer
                  (withProjectResults (Sample.topLevelError "boom")
                     [Sample.planResult "a" 1])
                  Sample.Plan "LOG" false Sample.store [] (or_introl Herr))).
Defined.

Lemma renderProjectResult_priority_witness :
  renderProjectResult (iteration := Sample.forwards) Sample.renderer
    {| CommonData_Command := "Plan"; CommonData_Verbose := false;
       CommonData_Log := "" |}
    crowdedResult ∅ Sample.store
  = (<["a" := lit "**Plan Error**\n```\nboom\n```\n"]> ∅, Sample.store).
Proof.
  apply (proj1 (renderProjectResult_priority (iteration := Sample.forwards)
                  Sample.renderer
                  {| CommonData_Command := "Plan"; CommonData_Verbose := false;
                     CommonData_Log := "" |}
                  crowdedResult ∅ Sample.store) "boom").
  reflexivity.
Defined.

Lemma Render_permutation_witness :
  NoDup (ProjectResult_Path <$> [Sample.planResult "b" 2; Sample.applyResult "a" "done"])
  ∧ [Sample.planResult "b" 2; Sample.applyResult "a" "done"]
    ≡ₚ [Sample.applyResult "a" "done"; Sample.planResult "b" 2]
  ∧ (Sample.render Sample.forwards
       (Sample.projects [Sample.applyResult "a" "done"; Sample.planResult "b" 2])
       Sample.Plan "LOG" true Sample.store).1
    = (Sample.render Sample.forwards
         (Sample.projects [Sample.planResult "b" 2; Sample.applyResult "a" "done"])
         Sample.Plan "LOG" true Sample.store).1.
Proof.
  assert (NoDup (ProjectResult_Path <$>
                   [Sample.planResult "b" 2; Sample.applyResult "a" "done"])) as Hnodup
    by (apply (bool_decide_unpack _); vm_compute; exact I).
  assert ([Sample.planResult "b" 2; Sample.applyResult "a" "done"]
          ≡ₚ [Sample.applyResult "a" "done"; Sample.planResult "b" 2]) as Hperm
    by apply perm_swap.
  split; [exact Hnodup|]. split; [exact Hperm|].
  apply (Render_permutation (iteration := Sample.forwards)
           Sample.CommandName Sample.CommandName_String Sample.strings_Title
           Sample.renderer
           (Sample.projects [Sample.planResult "b" 2; Sample.applyResult "a" "done"])
           Sample.Plan "LOG" true Sample.store
           [Sample.applyResult "a" "done"; Sample.planResult "b" 2] Hnodup Hperm).
Defined.

Lemma Render_ignores_LockURL_witness :
  samePlans (heap Sample.store) (heap staleStore)
  ∧ (Sample.render Sample.forwards (Sample.projects [Sample.planResult "a" 1])
       Sample.Plan "LOG" false staleStore).1
    = lit "```diff\n+ resource\n```\n\n* To **discard** this plan click [here](http://x/L1).\n\n".
Proof.
  assert (samePlans (heap Sample.store) (heap staleStore)) as Hsame
    by (intros p; split; reflexivity).
  split; [exact Hsame|].
  etrans; [|reflexivity].
  exact (Render_ignores_LockURL (iteration := Sample.forwards)
           Sample.CommandName Sample.CommandName_String Sample.strings_Title
           Sample.renderer (Sample.projects [Sample.planResult "a" 1])
           Sample.Plan "LOG" false Sample.store staleStore Hsame).
Defined.

Lemma Render_contains_every_fragment_witness :
  Sample.planResult "b" 2
  ∈ [Sample.planResult "b" 2; Sample.applyResult "a" "done"]
  ∧ contains
      (lit "```diff\n- resource\n```\n\n* To **discard** this plan click [here](http://x/L2).")
      (Sample.render Sample.forwards
         (Sample.projects [Sample.planResult "b" 2; Sample.applyResult "a" "done"])
         Sample.Plan "LOG" false Sample.store).1.
Proof.
  assert (NoDup (ProjectResult_Path <$>
                   [Sample.planResult "b" 2; Sample.applyResult "a" "done"])) as Hnodup
    by (apply (bool_decide_unpack _); vm_compute; exact I).
  assert (Sample.planResult "b" 2
          ∈ [Sample.planResult "b" 2; Sample.applyResult "a" "done"]) as Hin
    by apply list_elem_of_here.
  split; [exact Hin|].
  apply (proj1 (Render_contains_every_fragment (iteration := Sample.forwards)
                  Sample.CommandName Sample.CommandName_String Sample.strings_Title
                  Sample.renderer
                  (Sample.projects [Sample.planResult "b" 2; Sample.applyResult "a" "done"])
                  Sample.Plan "LOG" false Sample.store (Sample.planResult "b" 2)
                  eq_refl eq_refl Hnodup Hin)).
Defined.

Lemma Render_sections_sorted_witness :
  1 < length [Sample.planResult "b" 2; Sample.applyResult "a" "done"]
  ∧ ∃ sorted,
      sorted ≡ₚ [Sample.planResult "b" 2; Sample.applyResult "a" "done"]
      ∧ StronglySorted String.le (ProjectResult_Path <$> sorted)
      ∧ (Sample.render Sample.backwards
           (Sample.projects [Sample.planResult "b" 2; Sample.applyResult "a" "done"])
           Sample.Plan "LOG" false Sample.store).1
        = "Ran Plan in 2 directories:" +:+ lit "\n" +:+
          concat ((λ r, " * `" +:+ ProjectResult_Path r +:+ lit "`\n") <$> sorted) +:+
          lit "\n" +:+
          concat ((λ r, "## " +:+ ProjectResult_Path r +:+ lit "/\n" +:+
                        fragment (LockURLBuilder Sample.renderer) "Plan"
                          (heap Sample.store) r +:+
                        lit "\n---\n") <$> sorted) +:+
          lit "\n".
Proof.
  assert (NoDup (ProjectResult_Path <$>
                   [Sample.planResult "b" 2; Sample.applyResult "a" "done"])) as Hnodup
    by (apply (bool_decide_unpack _); vm_compute; exact I).
  split; [cbn; lia|].
  apply (Render_sections_sorted (iteration := Sample.backwards)
           Sample.CommandName Sample.CommandName_String Sample.strings_Title
           Sample.renderer
           (Sample.projects [Sample.planResult "b" 2; Sample.applyResult "a" "done"])
           Sample.Plan "LOG" false Sample.store eq_refl eq_refl Hnodup).
  cbn; lia.
Defined.

Lemma Render_one_path_witness :
  Forall (λ r', ProjectResult_Path r' = "a")
    [Sample.emptyResult "a"; Sample.planResult "a" 1]
  ∧ (Sample.render Sample.forwards
       (Sample.projects [Sample.emptyResult "a"; Sample.planResult "a" 1;
                         Sample.applyResult "a" "done"])
       Sample.Apply "LOG" false Sample.store).1
    = lit "```diff\ndone\n```\n\n".
Proof.
  assert (Forall (λ r', ProjectResult_Path r'
                        = ProjectResult_Path (Sample.applyResult "a" "done"))
            [Sample.emptyResult "a"; Sample.planResult "a" 1]) as Hsame
    by (repeat constructor).
  split; [exact Hsame|].
  apply (Render_one_path (iteration := Sample.forwards)
           Sample.CommandName Sample.CommandName_String Sample.strings_Title
           Sample.renderer
           (Sample.projects [Sample.emptyResult "a"; Sample.planResult "a" 1;
                             Sample.applyResult "a" "done"])
           Sample.Apply "LOG" false Sample.store
           [Sample.emptyResult "a"; Sample.planResult "a" 1]
           (Sample.applyResult "a" "done") eq_refl eq_refl eq_refl Hsame).
Defined.
